(** * Discrete-time PID loop of the NNFL workshop notebook

    A shallow embedding of the notebook "Basic PID Implementation"
    ([Workshops/NNFL workshop 2], [PID.ipynb] and its checkpoint): the
    code cells, in the order they are written, twice.  First as a
    program on the eight numpy arrays, with the numbers that the cells
    bind as its arguments: the recurrences are read off this one.  Then
    as the same cells on the whole namespace of the kernel, where every
    global name that they bind or read is in the state: the modules, the
    settings, [Ts], [n_samples], [t], the arrays, the loop variable [i],
    [fig] and [ax].  Lemmas [run_cells_outcome] and [run_cells_notebook]
    show that the two agree.

    The arithmetic is kept abstract in a small interface.  The program
    runs in its instance IEEE binary64 (what Python floats and numpy's
    float64 compute); the second instance, exact rationals, is the
    real-valued reading of the recurrences and is only used where a
    result says so.  The rendering of the figure and the limits of
    memory are left out. *)

From Stdlib Require Import ZArith QArith Qround Qpower Qabs Floats Lia Lqa.
From stdpp Require Import base option list functions gmap strings.

Local Open Scope Z_scope.

(** ** Exceptions and the notebook monad *)

(** The Python exceptions the cells can raise. *)
Inductive PyError : Set :=
| ZeroDivisionError
| ValueError
| OverflowError
| NameError
| IndexError
| TypeError
| AttributeError.

(** Result of evaluating an expression or statement. *)
Inductive outcome (A : Type) : Type :=
| Done (a : A)
| Raised (err : PyError).
Arguments Done {A} a.
Arguments Raised {A} err.

(** Arithmetic of the notebook's numbers.  [of_int] is the conversion
    Python applies to an [int] operand of a float operation; [add], [sub],
    [mul], [div] are the total numpy operations ([div] by zero gives an
    infinity or a NaN in binary64, it does not raise); [is_zero] is the
    test [x == 0] that makes Python's scalar division raise;
    [math_floor] is [math.floor] and [safe_ceil] is the ceiling numpy
    takes for the length of [np.arange]. *)
Class Num (T : Type) : Type := {
  of_int : Z → T;
  add : T → T → T;
  sub : T → T → T;
  mul : T → T → T;
  div : T → T → T;
  is_zero : T → bool;
  ltb : T → T → bool;
  leb : T → T → bool;
  math_floor : T → outcome Z;
  safe_ceil : T → outcome Z;
}.

(** The few facts about the numbers that the generic results use: a
    positive number is not zero, and the setpoint [2*np.ones(..)] holds
    the number 2, which is not zero. *)
Class NumLaws (T : Type) `{Num T} : Prop := {
  pos_nonzero : ∀ x, ltb (of_int 0) x = true → is_zero x = false;
  two_ones : mul (of_int 2) (of_int 1) = of_int 2;
  two_nonzero : is_zero (of_int 2) = false;
}.

(** *** Binary64 *)

Definition float_of_int (z : Z) : float :=
  if z <? 0 then PrimFloat.opp (PrimFloat.of_uint63 (Uint63.of_Z (- z)))
  else PrimFloat.of_uint63 (Uint63.of_Z z).

(** The integer below a finite binary64 number [(-1)^s * m * 2^e]. *)
Definition sf_floor (x : spec_float) : outcome Z :=
  match x with
  | S754_nan => Raised ValueError
  | S754_infinity _ => Raised OverflowError
  | S754_zero _ => Done 0
  | S754_finite s m e =>
      let v := if s then Z.neg m else Z.pos m in
      Done (if 0 <=? e then v * 2 ^ e else v / 2 ^ (- e))
  end.

(** The length that [np.arange] takes: the ceiling, converted to a 64-bit
    integer.  numpy refuses a NaN and a ceiling outside [[-2^63, 2^63]]
    with [ValueError]; at [2^63] itself the conversion wraps around to
    [-2^63] (on x86-64), and a length that is not positive gives the
    empty array. *)
Definition sf_ceil (x : spec_float) : outcome Z :=
  match x with
  | S754_nan => Raised ValueError
  | S754_infinity _ => Raised ValueError
  | S754_zero _ => Done 0
  | S754_finite s m e =>
      let v := if s then Z.neg m else Z.pos m in
      let c := if 0 <=? e then v * 2 ^ e else - ((- v) / 2 ^ (- e)) in
      if (- 2 ^ 63 <=? c) && (c <=? 2 ^ 63)
      then Done (if c =? 2 ^ 63 then - 2 ^ 63 else c)
      else Raised ValueError
  end.

Definition float_floor (x : float) : outcome Z := sf_floor (Prim2SF x).
Definition float_ceil (x : float) : outcome Z := sf_ceil (Prim2SF x).
Definition float_is_zero (x : float) : bool := PrimFloat.eqb x 0%float.

(** The rational number that a finite binary64 number stands for (0 for
    the infinities and NaN). *)
Definition float_to_Q (x : float) : Q :=
  match Prim2SF x with
  | S754_finite s m e => inject_Z (if s then Z.neg m else Z.pos m) * 2 ^ e
  | _ => 0
  end%Q.

(** *** Exact rationals, kept in lowest terms *)

Definition Q_of_int (z : Z) : Q := inject_Z z.
Definition Q_add (a b : Q) : Q := Qred (a + b).
Definition Q_sub (a b : Q) : Q := Qred (a - b).
Definition Q_mul (a b : Q) : Q := Qred (a * b).
Definition Q_div (a b : Q) : Q := Qred (a / b).
Definition Q_is_zero (a : Q) : bool := Qeq_bool a 0.
Definition Q_ltb (a b : Q) : bool := negb (Qle_bool b a).
Definition Q_floor (a : Q) : outcome Z := Done (Qfloor a).
Definition Q_ceil (a : Q) : outcome Z := Done (Qceiling a).

#[export] Instance float_Num : Num float := {
  of_int := float_of_int;
  add := PrimFloat.add;
  sub := PrimFloat.sub;
  mul := PrimFloat.mul;
  div := PrimFloat.div;
  is_zero := float_is_zero;
  ltb := PrimFloat.ltb;
  leb := PrimFloat.leb;
  math_floor := float_floor;
  safe_ceil := float_ceil;
}.

#[export] Instance Q_Num : Num Q := {
  of_int := Q_of_int;
  add := Q_add;
  sub := Q_sub;
  mul := Q_mul;
  div := Q_div;
  is_zero := Q_is_zero;
  ltb := Q_ltb;
  leb := Qle_bool;
  math_floor := Q_floor;
  safe_ceil := Q_ceil;
}.

(** ** The notebook as a program *)

(** The arrays bound to the notebook's global names.  This first program
    follows the arrays only: the numbers that the cells bind ([Ts],
    [n_samples], the settings) are its arguments and the loop variable
    is the argument of the loop body, so they are no names of this
    namespace.  The cells with every global name in the state come
    further down ([Kernel], [run_cells]). *)
Abbreviation Namespace T := (gmap string (list T)).

(** The eight array names of the notebook. *)
Inductive name : Set :=
| N_m | N_m_cont | N_y_open_loop | N_y | N_y_sp | N_e | N_int_e | N_diff_e.

Definition var (x : name) : string :=
  match x with
  | N_m => "m"
  | N_m_cont => "m_cont"
  | N_y_open_loop => "y_open_loop"
  | N_y => "y"
  | N_y_sp => "y_sp"
  | N_e => "e"
  | N_int_e => "int_e"
  | N_diff_e => "diff_e"
  end.

#[export] Instance name_eq_dec : EqDecision name.
Proof. solve_decision. Defined.

(** The arrays bound to the eight names. *)
Abbreviation Arrays T := (name → list T).

Section Notebook.
Context {T : Type} `{Num T}.

(** A statement or expression: it runs in a namespace, returns a value or
    raises, and leaves a namespace behind (what it mutated stays mutated
    when it raises). *)
Definition Py (A : Type) : Type := Namespace T → outcome A * Namespace T.

Definition py_ret {A} (a : A) : Py A := λ ns, (Done a, ns).
Definition py_raise {A} (err : PyError) : Py A := λ ns, (Raised err, ns).
Definition py_bind {A B} (c : Py A) (k : A → Py B) : Py B :=
  λ ns, match c ns with
        | (Done a, ns') => k a ns'
        | (Raised err, ns') => (Raised err, ns')
        end.
Definition py_lift {A} (o : outcome A) : Py A := λ ns, (o, ns).

#[export] Instance Py_ret : MRet Py := @py_ret.
#[export] Instance Py_bind : MBind Py := λ A B k c, py_bind c k.

(** [x[i]] for a global array [x]. *)
Definition load (x : string) (i : nat) : Py T :=
  λ ns, match ns !! x with
        | None => (Raised NameError, ns)
        | Some a => match a !! i with
                    | Some v => (Done v, ns)
                    | None => (Raised IndexError, ns)
                    end
        end.

(** [x[i] = v]: the array bound to [x] is updated in place. *)
Definition store (x : string) (i : nat) (v : T) : Py unit :=
  λ ns, match ns !! x with
        | None => (Raised NameError, ns)
        | Some a => if decide (i < length a)%nat
                    then (Done (), <[x := <[i := v]> a]> ns)
                    else (Raised IndexError, ns)
        end.

(** [x = a]: the name is bound to a new array. *)
Definition assign (x : string) (a : list T) : Py unit :=
  λ ns, (Done (), <[x := a]> ns).

(** [a / b] on Python scalars: a zero divisor raises. *)
Definition py_div (a b : T) : Py T :=
  if is_zero b then py_raise ZeroDivisionError else py_ret (div a b).

(** [np.zeros(k)], [np.ones(k)]: numpy refuses a negative dimension. *)
Definition np_full (v : T) (k : Z) : Py (list T) :=
  if k <? 0 then py_raise ValueError else py_ret (replicate (Z.to_nat k) v).
Definition np_zeros : Z → Py (list T) := np_full (of_int 0).
Definition np_ones : Z → Py (list T) := np_full (of_int 1).

(** [np.arange(start, stop, step)] on floats, as numpy computes it:
    [ceil((stop - start)/step)] values, the first two [start] and
    [start + step], the others [start + i*delta] with
    [delta = (start + step) - start], each operation rounded on its own
    (no fused multiply-add). *)
Definition arange_item (start step : T) (i : nat) : T :=
  match i with
  | 0%nat => start
  | 1%nat => add start step
  | _ => add start (mul (of_int (Z.of_nat i)) (sub (add start step) start))
  end.

Definition arange_values (start step : T) (len : Z) : list T :=
  arange_item start step <$> seq 0 (Z.to_nat len).

Definition np_arange (start stop step : T) : Py (list T) :=
  q ← py_div (sub stop start) step;
  len ← py_lift (safe_ceil q);
  mret (arange_values start step len).

(** [for i in range(lo, lo + k): body(i)], on the arrays: the value of
    the loop variable is handed to the body (the binding of the name [i]
    is in [for_in_range] below). *)
Fixpoint for_range (body : nat → Py unit) (lo k : nat) : Py unit :=
  match k with
  | O => mret ()
  | S k' => body lo ;; for_range body (S lo) k'
  end.

Section Cells.
Variables Ts tau Kp Ki Kd : T.
Variable n_samples : Z.

(** Cell "Step response": the eight arrays. *)
Definition step_response : Py unit :=
  a ← np_ones (n_samples + 1); assign "m" a;;
  a ← np_zeros (n_samples + 1); assign "m_cont" a;;
  a ← np_zeros (n_samples + 1); assign "y_open_loop" a;;
  a ← np_zeros (n_samples + 1); assign "y" a;;
  a ← np_ones (n_samples + 1); assign "y_sp" (mul (of_int 2) <$> a);;
  a ← np_zeros (n_samples + 1); assign "e" a;;
  a ← np_zeros (n_samples + 1); assign "int_e" a;;
  a ← np_zeros (n_samples + 1); assign "diff_e" a.

(** One pass of the loop body. *)
Definition loop_body (i : nat) : Py unit :=
  (* y_open_loop[i+1] = (1 - (Ts/tau))*y_open_loop[i] + (Ts/tau)*m[i] *)
  q1 ← py_div Ts tau; yo ← load "y_open_loop" i;
  q2 ← py_div Ts tau; u ← load "m" i;
  store "y_open_loop" (i + 1) (add (mul (sub (of_int 1) q1) yo) (mul q2 u));;
  (* y[i+1] = (1 - (Ts/tau))*y[i] + (Ts/tau)*m_cont[i] *)
  q3 ← py_div Ts tau; yc ← load "y" i;
  q4 ← py_div Ts tau; mc ← load "m_cont" i;
  store "y" (i + 1) (add (mul (sub (of_int 1) q3) yc) (mul q4 mc));;
  (* e[i+1] = y_sp[i+1] - y[i+1] *)
  r ← load "y_sp" (i + 1); y1 ← load "y" (i + 1);
  store "e" (i + 1) (sub r y1);;
  (* int_e[i+1] = int_e[i] + Ts* e[i+1] *)
  ie ← load "int_e" i; e1 ← load "e" (i + 1);
  store "int_e" (i + 1) (add ie (mul Ts e1));;
  (* diff_e[i+1] = (e[i+1] - e[i]) /Ts *)
  e1 ← load "e" (i + 1); e0 ← load "e" i;
  store "diff_e" (i + 1) (div (sub e1 e0) Ts);;
  (* m_cont[i+1] = Kp* e[i+1] + Ki * int_e[i+1] + Kd* diff_e[i+1] *)
  e1 ← load "e" (i + 1); ie1 ← load "int_e" (i + 1);
  de1 ← load "diff_e" (i + 1);
  store "m_cont" (i + 1) (add (add (mul Kp e1) (mul Ki ie1)) (mul Kd de1)).

(** [for i in range(0,n_samples): ...] *)
Definition simulation_loop : Py unit :=
  for_range loop_body 0 (Z.to_nat n_samples).

(** The two cells that make a simulation run. *)
Definition simulate : Py unit := step_response;; simulation_loop.

End Cells.

(** The top-level settings of the notebook: the cells "Initialization"
    and "Parameters".  The notebook writes them as Python ints and one
    float; an int is converted by the float operation that uses it, so
    they are numbers here. *)
Record Config : Type := {
  Fs : T; Tf : T; Ti : T;
  tau : T; Kp : T; Ki : T; Kd : T;
}.

(** The code cells from "Initialization" to the loop:
    [Ts = 1 / Fs], [n_samples = math.floor(Tf / Ts)],
    [t = np.arange(Ti,Tf,Ts)], the arrays and the loop.  It returns the
    sampling period and the number of samples it computed. *)
Definition notebook (c : Config) : Py (T * Z) :=
  Ts ← py_div (of_int 1) (Fs c);
  q ← py_div (Tf c) Ts;
  n_samples ← py_lift (math_floor q);
  t ← np_arange (Ti c) (Tf c) Ts; assign "t" t;;
  simulate Ts (tau c) (Kp c) (Ki c) (Kd c) n_samples;;
  mret (Ts, n_samples).

(** [x[i]] read off a namespace, when the name is bound and the index is
    in range. *)
Definition item (ns : Namespace T) (x : string) (i : nat) : option T :=
  ns !! x ≫= λ a, a !! i.

(** ** The recurrences, in the words of the specification

    One value per trajectory at a time index, and the six update rules of
    the algorithm (open-loop plant, closed-loop plant, error, integral,
    derivative, controller output).  The program above is compared with
    this reading. *)

Record sample : Type := {
  s_y_open_loop : T;
  s_y : T;
  s_e : T;
  s_int_e : T;
  s_diff_e : T;
  s_m_cont : T;
}.

Definition next_sample (Ts tau Kp Ki Kd : T) (u r : T) (s : sample) : sample :=
  let y_open' := add (mul (sub (of_int 1) (div Ts tau)) (s_y_open_loop s))
                     (mul (div Ts tau) u) in
  let y' := add (mul (sub (of_int 1) (div Ts tau)) (s_y s))
                (mul (div Ts tau) (s_m_cont s)) in
  let e' := sub r y' in
  let int_e' := add (s_int_e s) (mul Ts e') in
  let diff_e' := div (sub e' (s_e s)) Ts in
  {| s_y_open_loop := y_open';
     s_y := y';
     s_e := e';
     s_int_e := int_e';
     s_diff_e := diff_e';
     s_m_cont := add (add (mul Kp e') (mul Ki int_e')) (mul Kd diff_e') |}.

(** The sample at index [k], from the sample at index 0, the forcing
    input [u i] of each step and the setpoint [r i] at each index. *)
Fixpoint traj (Ts tau Kp Ki Kd : T) (u r : nat → T) (s0 : sample) (k : nat)
  : sample :=
  match k with
  | O => s0
  | S k' => next_sample Ts tau Kp Ki Kd (u k') (r k) (traj Ts tau Kp Ki Kd u r s0 k')
  end.

(** The open-loop plant alone: its output after [k] steps from the
    output [y0], under the forcing input [u]. *)
Fixpoint open_loop (Ts tau : T) (u : nat → T) (y0 : T) (k : nat) : T :=
  match k with
  | O => y0
  | S k' => add (mul (sub (of_int 1) (div Ts tau)) (open_loop Ts tau u y0 k'))
                (mul (div Ts tau) (u k'))
  end.

(** ** The arrays of the namespace, as the proofs see them *)

(** The namespace in which the eight names are bound to the arrays [A],
    in the order the cell "Step response" binds them. *)
Definition to_ns (A : Arrays T) (ns : Namespace T) : Namespace T :=
  <[var N_diff_e := A N_diff_e]> (<[var N_int_e := A N_int_e]>
  (<[var N_e := A N_e]> (<[var N_y_sp := A N_y_sp]>
  (<[var N_y := A N_y]> (<[var N_y_open_loop := A N_y_open_loop]>
  (<[var N_m_cont := A N_m_cont]> (<[var N_m := A N_m]> ns))))))).

(** The arrays bound by the cell "Step response". *)
Definition fresh_arrays (n_samples : Z) : Arrays T := λ x,
  match x with
  | N_m => replicate (Z.to_nat (n_samples + 1)) (of_int 1)
  | N_y_sp => mul (of_int 2) <$> replicate (Z.to_nat (n_samples + 1)) (of_int 1)
  | _ => replicate (Z.to_nat (n_samples + 1)) (of_int 0)
  end.

(** What is at index [i] of an array, 0 outside of it. *)
Definition at_index (a : list T) (i : nat) : T := default (of_int 0) (a !! i).

(** The array [a] with the entries of the indices up to [k] taken from
    [f]. *)
Definition written (k : nat) (f : nat → T) (a : list T) : list T :=
  imap (λ j v, if decide (j ≤ k)%nat then f j else v) a.

Definition sample0 (A : Arrays T) : sample :=
  {| s_y_open_loop := at_index (A N_y_open_loop) 0;
     s_y := at_index (A N_y) 0;
     s_e := at_index (A N_e) 0;
     s_int_e := at_index (A N_int_e) 0;
     s_diff_e := at_index (A N_diff_e) 0;
     s_m_cont := at_index (A N_m_cont) 0 |}.

(** The samples that the loop computes from the arrays [A]. *)
Definition traj_of (Ts tau Kp Ki Kd : T) (A : Arrays T) : nat → sample :=
  traj Ts tau Kp Ki Kd (at_index (A N_m)) (at_index (A N_y_sp)) (sample0 A).

(** The arrays after [k] passes of the loop that started from [A]. *)
Definition arrays_at (Ts tau Kp Ki Kd : T) (k : nat) (A : Arrays T) : Arrays T :=
  let tr := traj_of Ts tau Kp Ki Kd A in
  λ x, match x with
       | N_m => A N_m
       | N_y_sp => A N_y_sp
       | N_m_cont => written k (λ j, s_m_cont (tr j)) (A N_m_cont)
       | N_y_open_loop => written k (λ j, s_y_open_loop (tr j)) (A N_y_open_loop)
       | N_y => written k (λ j, s_y (tr j)) (A N_y)
       | N_e => written k (λ j, s_e (tr j)) (A N_e)
       | N_int_e => written k (λ j, s_int_e (tr j)) (A N_int_e)
       | N_diff_e => written k (λ j, s_diff_e (tr j)) (A N_diff_e)
       end.

End Notebook.

Arguments Config T : clear implicits.
Arguments sample T : clear implicits.

(** The settings the notebook is written with. *)
Definition notebook_config : Config float :=
  {| Fs := 100; Tf := 10; Ti := 0;
     tau := 2; Kp := 5; Ki := 5; Kd := 0x1.999999999999ap-4 |}%float.

(** ** The cells on the whole namespace of the kernel

    The program above follows the arrays and takes the numbers the cells
    bind as arguments.  The cells also bind those numbers, the three
    modules, the loop variable [i] and the figure to global names, and
    read them back from the namespace.  What follows is the same cells
    with every global name in the state.

    The values are the kinds of object the notebook binds: Python
    numbers, numpy arrays of float64, modules, a figure and its axes.
    The modules are taken as distributed (with numpy's default handling
    of floating-point errors: a warning, no exception), and an array is
    a value of its own: no two names share one. *)

Section Values.
Context {T : Type}.

(** A line of the figure: its data, format and label. *)
Record line : Type := {
  xdata : list T;
  ydata : list T;
  fmt : string;
  label : string;
}.

Inductive value : Type :=
| VInt (z : Z)                     (* a Python [int] *)
| VNum (x : T)                     (* a Python number in float arithmetic *)
| VArr (a : list T)                (* a one-dimensional numpy array *)
| VModule (m : string)
| VFigure
| VAxes (lines : list line) (title : option string) (legend : bool).

End Values.

Arguments line T : clear implicits.
Arguments value T : clear implicits.

(** The global names of the kernel and what they are bound to. *)
Abbreviation Kernel T := (gmap string (value T)).

Section Cells.
Context {T : Type} `{Num T}.

(** A cell, a statement or an expression on the kernel. *)
Definition Cell (A : Type) : Type := Kernel T → outcome A * Kernel T.

Definition cell_ret {A} (a : A) : Cell A := λ k, (Done a, k).
Definition cell_raise {A} (err : PyError) : Cell A := λ k, (Raised err, k).
Definition cell_bind {A B} (c : Cell A) (f : A → Cell B) : Cell B :=
  λ k, match c k with
       | (Done a, k') => f a k'
       | (Raised err, k') => (Raised err, k')
       end.
Definition cell_lift {A} (o : outcome A) : Cell A := λ k, (o, k).

#[export] Instance Cell_ret : MRet Cell := @cell_ret.
#[export] Instance Cell_bind : MBind Cell := λ A B f c, cell_bind c f.

(** [x = v] at top level. *)
Definition rebind (x : string) (v : value T) : Cell unit :=
  λ k, (Done (), <[x := v]> k).

(** The value of the global name [x]. *)
Definition read (x : string) : Cell (value T) :=
  λ k, match k !! x with
       | Some v => (Done v, k)
       | None => (Raised NameError, k)
       end.

(** A builtin such as [range] is what its name stands for as long as no
    global of that name hides it; none of the values above can be
    called. *)
Definition hidden (x : string) : Cell bool :=
  λ k, (Done (bool_decide (is_Some (k !! x))), k).

(** An operand of float arithmetic.  (With a whole array for operand
    numpy would go on elementwise; the embedding stops there, and no
    result below runs a cell in a kernel where a name that the cell
    reads as a number is bound to an array.) *)
Definition as_number (v : value T) : Cell T :=
  match v with
  | VNum x => mret x
  | VInt z => mret (of_int z)
  | _ => cell_raise TypeError
  end.

(** An object where an integer is called for: the bound of [range], the
    length of an array. *)
Definition as_integer (v : value T) : Cell Z :=
  match v with
  | VInt z => mret z
  | _ => cell_raise TypeError
  end.

(** The object of a subscript. *)
Definition as_array (v : value T) : Cell (list T) :=
  match v with
  | VArr a => mret a
  | _ => cell_raise TypeError
  end.

(** [x.attribute] for a function of the module [m]. *)
Definition function_of (m x : string) : Cell unit :=
  v ← read x;
  match v with
  | VModule m' => if decide (m' = m) then mret () else cell_raise AttributeError
  | _ => cell_raise AttributeError
  end.

(** [a / b] on Python numbers. *)
Definition true_divide (a b : T) : Cell T :=
  if is_zero b then cell_raise ZeroDivisionError else mret (div a b).

(** [x / y] for two global names. *)
Definition quotient (x y : string) : Cell T :=
  vx ← read x; vy ← read y;
  a ← as_number vx; b ← as_number vy;
  true_divide a b.

(** [x[i]]. *)
Definition get_item (x : string) (i : nat) : Cell T :=
  v ← read x; a ← as_array v;
  match a !! i with
  | Some w => mret w
  | None => cell_raise IndexError
  end.

(** [x[i] = w]. *)
Definition set_item (x : string) (i : nat) (w : T) : Cell unit :=
  v ← read x; a ← as_array v;
  if decide (i < length a)%nat then rebind x (VArr (<[i := w]> a))
  else cell_raise IndexError.

(** [x * a[i]] for a global number [x]. *)
Definition times_item (x a : string) (i : nat) : Cell T :=
  vx ← read x; w ← get_item a i; n ← as_number vx; mret (mul n w).

(** [np.ones(n)], [np.zeros(n)] *)
Definition full (v : T) (n : Z) : Cell (list T) :=
  if n <? 0 then cell_raise ValueError
  else mret (replicate (Z.to_nat n) v).

(** [np.zeros(n_samples+1)] and [np.ones(n_samples+1)]. *)
Definition allocate (v : T) : Cell (list T) :=
  function_of "numpy" "np";;
  vn ← read "n_samples"; n ← as_integer vn;
  full v (n + 1).

(** Cell "import". *)
Definition cell_imports : Cell unit :=
  rebind "math" (VModule "math");;
  rebind "np" (VModule "numpy");;
  rebind "plt" (VModule "matplotlib.pyplot").

(** Cell "Initialization". *)
Definition cell_initialization (c : Config T) : Cell unit :=
  rebind "Fs" (VNum (Fs c));;
  rebind "Tf" (VNum (Tf c));;
  rebind "Ti" (VNum (Ti c));;
  (* Ts = 1 / Fs *)
  vFs ← read "Fs"; d ← as_number vFs; Ts ← true_divide (of_int 1) d;
  rebind "Ts" (VNum Ts).

(** Cell "Number of samples". *)
Definition cell_samples : Cell unit :=
  (* n_samples = math.floor(Tf / Ts) *)
  function_of "math" "math";;
  q ← quotient "Tf" "Ts"; n ← cell_lift (math_floor q);
  rebind "n_samples" (VInt n);;
  (* t = np.arange(Ti,Tf,Ts) *)
  function_of "numpy" "np";;
  vTi ← read "Ti"; vTf ← read "Tf"; vTs ← read "Ts";
  start ← as_number vTi; stop ← as_number vTf; step ← as_number vTs;
  q ← true_divide (sub stop start) step;
  len ← cell_lift (safe_ceil q);
  rebind "t" (VArr (arange_values start step len)).

(** Cell "Parameters". *)
Definition cell_parameters (c : Config T) : Cell unit :=
  rebind "tau" (VNum (tau c));;
  rebind "Kp" (VNum (Kp c));;
  rebind "Ki" (VNum (Ki c));;
  rebind "Kd" (VNum (Kd c)).

(** Cell "Step response". *)
Definition cell_step_response : Cell unit :=
  a ← allocate (of_int 1); rebind "m" (VArr a);;
  a ← allocate (of_int 0); rebind "m_cont" (VArr a);;
  a ← allocate (of_int 0); rebind "y_open_loop" (VArr a);;
  a ← allocate (of_int 0); rebind "y" (VArr a);;
  a ← allocate (of_int 1); rebind "y_sp" (VArr (mul (of_int 2) <$> a));;
  a ← allocate (of_int 0); rebind "e" (VArr a);;
  a ← allocate (of_int 0); rebind "int_e" (VArr a);;
  a ← allocate (of_int 0); rebind "diff_e" (VArr a).

(** One pass of the loop, [i] being what the [for] statement has just
    bound the name [i] to (the body does not bind it). *)
Definition loop_pass (i : nat) : Cell unit :=
  (* y_open_loop[i+1] = (1 - (Ts/tau))*y_open_loop[i] + (Ts/tau)*m[i] *)
  q1 ← quotient "Ts" "tau"; yo ← get_item "y_open_loop" i;
  q2 ← quotient "Ts" "tau"; u ← get_item "m" i;
  set_item "y_open_loop" (i + 1) (add (mul (sub (of_int 1) q1) yo) (mul q2 u));;
  (* y[i+1] = (1 - (Ts/tau))*y[i] + (Ts/tau)*m_cont[i] *)
  q3 ← quotient "Ts" "tau"; yc ← get_item "y" i;
  q4 ← quotient "Ts" "tau"; mc ← get_item "m_cont" i;
  set_item "y" (i + 1) (add (mul (sub (of_int 1) q3) yc) (mul q4 mc));;
  (* e[i+1] = y_sp[i+1] - y[i+1] *)
  r ← get_item "y_sp" (i + 1); y1 ← get_item "y" (i + 1);
  set_item "e" (i + 1) (sub r y1);;
  (* int_e[i+1] = int_e[i] + Ts* e[i+1] *)
  ie ← get_item "int_e" i; p ← times_item "Ts" "e" (i + 1);
  set_item "int_e" (i + 1) (add ie p);;
  (* diff_e[i+1] = (e[i+1] - e[i]) /Ts *)
  e1 ← get_item "e" (i + 1); e0 ← get_item "e" i;
  vTs ← read "Ts"; Ts ← as_number vTs;
  set_item "diff_e" (i + 1) (div (sub e1 e0) Ts);;
  (* m_cont[i+1] = Kp* e[i+1] + Ki * int_e[i+1] + Kd* diff_e[i+1] *)
  p1 ← times_item "Kp" "e" (i + 1);
  p2 ← times_item "Ki" "int_e" (i + 1);
  p3 ← times_item "Kd" "diff_e" (i + 1);
  set_item "m_cont" (i + 1) (add (add p1 p2) p3).

(** [for i in range(lo, lo + n): body]: each pass binds [i] first. *)
Fixpoint for_in_range (body : nat → Cell unit) (lo n : nat) : Cell unit :=
  match n with
  | O => mret ()
  | S n' =>
      rebind "i" (VInt (Z.of_nat lo));; body lo;;
      for_in_range body (S lo) n'
  end.

(** Calling a builtin: what hides it is not callable. *)
Definition call_builtin (is_hidden : bool) : Cell unit :=
  if is_hidden then cell_raise TypeError else mret ().

(** The loop cell: [for i in range(0,n_samples): ...]. *)
Definition cell_loop : Cell unit :=
  h ← hidden "range"; vn ← read "n_samples";
  call_builtin h;;
  n ← as_integer vn;
  for_in_range loop_pass 0 (Z.to_nat n).

(** The cells from the imports to the loop, in the order they are
    written, with the settings [c] for the numbers the notebook is
    written with. *)
Definition run_cells (c : Config T) : Cell unit :=
  cell_imports;;
  cell_initialization c;;
  cell_samples;;
  cell_parameters c;;
  cell_step_response;;
  cell_loop.

(** What [ax.plot] makes of its first argument: an array as it is, a
    number as one point.  (Other objects are outside the embedding.) *)
Definition as_data (v : value T) : Cell (list T) :=
  match v with
  | VArr a => mret a
  | VNum x => mret [x]
  | VInt z => mret [of_int z]
  | _ => cell_raise TypeError
  end.

(** [ax.plot(x, y[1:], f, label=l)]: matplotlib refuses data of different
    lengths; otherwise the axes get one more line. *)
Definition plot_line (x y f l : string) : Cell unit :=
  vax ← read "ax";
  match vax with
  | VAxes ls title legend =>
      vx ← read x; vy ← read y;
      ys ← as_array vy; xs ← as_data vx;
      if decide (length xs = length (drop 1 ys))
      then rebind "ax" (VAxes (ls ++ [{| xdata := xs; ydata := drop 1 ys;
                                         fmt := f; label := l |}])
                          title legend)
      else cell_raise ValueError
  | _ => cell_raise AttributeError
  end.

(** The plotting cell, up to the rendering.  The axes object is mutated
    by [ax.plot], [plt.title] and [ax.legend]; [ax] is the one name bound
    to it, so the mutation is a new value under that name.  (The current
    figure that pyplot keeps inside the module is no name of the
    kernel.) *)
Definition cell_plot : Cell unit :=
  (* fig = plt.figure() *)
  function_of "matplotlib.pyplot" "plt";; rebind "fig" VFigure;;
  (* ax = plt.subplot(111) *)
  function_of "matplotlib.pyplot" "plt";; rebind "ax" (VAxes [] None false);;
  plot_line "t" "y_open_loop" "r-" "Open Loop";;
  plot_line "t" "y" "b-" "Closed Loop";;
  (* plt.title('Responses'): the title of the current axes *)
  function_of "matplotlib.pyplot" "plt";;
  vax ← read "ax";
  match vax with
  | VAxes ls _ legend => rebind "ax" (VAxes ls (Some "Responses") legend)
  | _ => cell_raise AttributeError
  end;;
  (* ax.legend() *)
  vax ← read "ax";
  match vax with
  | VAxes ls title _ => rebind "ax" (VAxes ls title true)
  | _ => cell_raise AttributeError
  end;;
  (* plt.show() *)
  function_of "matplotlib.pyplot" "plt".

(** The names that the cells from the imports to the loop assign. *)
Definition cell_names : list string :=
  ["math"; "np"; "plt"; "Fs"; "Tf"; "Ti"; "Ts"; "n_samples"; "t";
   "tau"; "Kp"; "Ki"; "Kd"; "m"; "m_cont"; "y_open_loop"; "y"; "y_sp";
   "e"; "int_e"; "diff_e"; "i"].

(** The kernel in which the eight array names are bound to the arrays
    [A]. *)
Definition to_kernel (A : Arrays T) (k : Kernel T) : Kernel T :=
  <[var N_diff_e := VArr (A N_diff_e)]> (<[var N_int_e := VArr (A N_int_e)]>
  (<[var N_e := VArr (A N_e)]> (<[var N_y_sp := VArr (A N_y_sp)]>
  (<[var N_y := VArr (A N_y)]> (<[var N_y_open_loop := VArr (A N_y_open_loop)]>
  (<[var N_m_cont := VArr (A N_m_cont)]> (<[var N_m := VArr (A N_m)]> k))))))).

(** The kernel once the loop variable has gone through
    [lo], ..., [lo + n - 1]. *)
Definition loop_variable (lo n : nat) (k : Kernel T) : Kernel T :=
  match n with
  | O => k
  | S n' => <["i" := VInt (Z.of_nat (lo + n'))]> k
  end.

(** The numbers that the loop reads are bound. *)
Definition loop_scalars (Ts tau Kp Ki Kd : T) (k : Kernel T) : Prop :=
  k !! "Ts" = Some (VNum Ts) ∧ k !! "tau" = Some (VNum tau) ∧
  k !! "Kp" = Some (VNum Kp) ∧ k !! "Ki" = Some (VNum Ki) ∧
  k !! "Kd" = Some (VNum Kd).

(** The kernel after the cells "import" and "Initialization" up to the
    assignment of [Ti], and after the cell "Parameters". *)
Definition with_settings (c : Config T) (k : Kernel T) : Kernel T :=
  <["Ti" := VNum (Ti c)]> (<["Tf" := VNum (Tf c)]> (<["Fs" := VNum (Fs c)]>
  (<["plt" := VModule "matplotlib.pyplot"]> (<["np" := VModule "numpy"]>
  (<["math" := VModule "math"]> k))))).

Definition with_parameters (c : Config T) (k : Kernel T) : Kernel T :=
  <["Kd" := VNum (Kd c)]> (<["Ki" := VNum (Ki c)]> (<["Kp" := VNum (Kp c)]>
  (<["tau" := VNum (tau c)]> k))).

End Cells.

(** ** The open-loop output in binary64, step by step *)

Definition float_is_finite (x : float) : bool :=
  match Prim2SF x with
  | S754_zero _ | S754_finite _ _ _ => true
  | _ => false
  end.

(** The open-loop output that the loop computes at index [k] under the
    unit input. *)
Definition y_open_loop_at (Ts tau : float) (k : nat) : float :=
  open_loop Ts tau (λ _, of_int 1) (of_int 0) k.

(** How far step [k] of the binary64 computation is from the exact
    update [(1 - r)*y + r] of the value it started from, [r] being the
    exact ratio of the two numbers [Ts] and [tau]. *)
Definition step_error (Ts tau : float) (k : nat) : Q :=
  (let r := float_to_Q Ts / float_to_Q tau in
   Qabs (float_to_Q (y_open_loop_at Ts tau (S k))
         - ((1 - r) * float_to_Q (y_open_loop_at Ts tau k) + r)))%Q.

(** The first [n] steps stay finite and each is within [delta] of the
    exact update. *)
Definition rounding_within (delta : Q) (Ts tau : float) (n : nat) : bool :=
  forallb (λ k, float_is_finite (y_open_loop_at Ts tau (S k))
                && Qle_bool (step_error Ts tau k) delta) (seq 0 n).

(** ** The loop refines the recurrences *)

Section Refinement.
Context {T : Type} `{Num T}.
Implicit Types (A : Arrays T) (ns : Namespace T) (a : list T).

Lemma bind_run {X Y} (c : Py X) (k : X → Py Y) ns :
  (c ≫= k) ns = match c ns with
                | (Done x, ns') => k x ns'
                | (Raised err, ns') => (Raised err, ns')
                end.
Proof. reflexivity. Qed.

Lemma to_ns_lookup A ns x : to_ns A ns !! var x = Some (A x).
Proof.
  destruct x; unfold to_ns; cbn [var];
    rewrite ?(lookup_insert_ne (M:=gmap string)) by done; apply lookup_insert_eq.
Qed.

Lemma to_ns_lookup_other A ns (s : string) :
  (∀ x, s ≠ var x) → to_ns A ns !! s = ns !! s.
Proof.
  intros Hs. unfold to_ns.
  rewrite !lookup_insert_ne by (intros E; by eapply Hs). done.
Qed.

Lemma to_ns_ext A A' ns : (∀ x, A x = A' x) → to_ns A ns = to_ns A' ns.
Proof. intros E. unfold to_ns. by rewrite !E. Qed.

Lemma to_ns_insert A ns x a :
  <[var x := a]> (to_ns A ns) = to_ns (<[x := a]> A) ns.
Proof.
  apply map_eq. intros s.
  destruct (decide (s = var x)) as [-> | Hne].
  - by rewrite lookup_insert_eq, to_ns_lookup, fn_lookup_insert.
  - rewrite lookup_insert_ne by done.
    unfold to_ns.
    destruct x; simpl in *; rewrite ?fn_lookup_insert_ne by done;
    rewrite ?fn_lookup_insert;
    repeat (rewrite lookup_insert; case_decide; [subst; try done|]); try done.
Qed.

Lemma load_to_ns x i v A ns :
  A x !! i = Some v → load (var x) i (to_ns A ns) = (Done v, to_ns A ns).
Proof. intros E. unfold load. by rewrite to_ns_lookup, E. Qed.

Lemma store_to_ns x i v A ns :
  (i < length (A x))%nat →
  store (var x) i v (to_ns A ns)
  = (Done (), to_ns (<[x := <[i := v]> (A x)]> A) ns).
Proof.
  intros Hi. unfold store. rewrite to_ns_lookup.
  rewrite decide_True by done. by rewrite to_ns_insert.
Qed.

Lemma py_div_ok (a b : T) ns :
  is_zero b = false → py_div a b ns = (Done (div a b), ns).
Proof. intros E. unfold py_div. by rewrite E. Qed.

Lemma py_div_zero (a b : T) ns :
  is_zero b = true → py_div a b ns = (Raised ZeroDivisionError, ns).
Proof. intros E. unfold py_div. by rewrite E. Qed.

(** *** Arrays written up to an index *)

Lemma length_written k f a : length (written k f a) = length a.
Proof. unfold written. apply length_imap. Qed.

Lemma lookup_written_le k f a j :
  (j ≤ k)%nat → (j < length a)%nat → written k f a !! j = Some (f j).
Proof.
  intros Hj Hl. unfold written. rewrite list_lookup_imap.
  destruct (lookup_lt_is_Some_2 a j Hl) as [v ->]. cbn.
  case_decide; [done | lia].
Qed.

Lemma lookup_written_gt k f a j :
  (k < j)%nat → written k f a !! j = a !! j.
Proof.
  intros Hj. unfold written. rewrite list_lookup_imap.
  destruct (a !! j); [|done]. cbn. case_decide; [lia | done].
Qed.

Lemma written_0 f a : f O = at_index a 0 → written 0 f a = a.
Proof.
  intros E. apply list_eq. intros j. destruct j as [|j].
  - destruct a as [|v a]; [done|]. cbn. case_decide; [|lia].
    by rewrite E.
  - apply lookup_written_gt. lia.
Qed.

Lemma insert_written k f a :
  <[S k := f (S k)]> (written k f a) = written (S k) f a.
Proof.
  apply list_eq. intros j.
  destruct (decide (j < length a)%nat) as [Hl|Hl].
  - destruct (decide (j = S k)) as [-> | Hne].
    + rewrite list_lookup_insert_eq by (by rewrite length_written).
      by rewrite lookup_written_le.
    + rewrite list_lookup_insert_ne by done.
      destruct (decide (j ≤ k)%nat).
      * by rewrite !lookup_written_le by lia.
      * by rewrite !lookup_written_gt by lia.
  - rewrite !lookup_ge_None_2; [done | | ];
      rewrite ?length_insert, length_written; lia.
Qed.

Lemma lookup_at_index a i : (i < length a)%nat → a !! i = Some (at_index a i).
Proof.
  intros Hi. unfold at_index.
  by destruct (lookup_lt_is_Some_2 a i Hi) as [v ->].
Qed.

(** *** One pass of the loop *)

Lemma load_named x s i v A ns :
  s = var x → A x !! i = Some v → load s i (to_ns A ns) = (Done v, to_ns A ns).
Proof. intros ->. apply load_to_ns. Qed.

Lemma store_named x s i v A ns :
  s = var x → (i < length (A x))%nat →
  store s i v (to_ns A ns) = (Done (), to_ns (<[x := <[i := v]> (A x)]> A) ns).
Proof. intros ->. apply store_to_ns. Qed.

Ltac name_of s :=
  lazymatch s with
  | "m" => constr:(N_m)
  | "m_cont" => constr:(N_m_cont)
  | "y_open_loop" => constr:(N_y_open_loop)
  | "y" => constr:(N_y)
  | "y_sp" => constr:(N_y_sp)
  | "e" => constr:(N_e)
  | "int_e" => constr:(N_int_e)
  | "diff_e" => constr:(N_diff_e)
  end.

Ltac array_side Hlen :=
  repeat first [ rewrite fn_lookup_insert | rewrite fn_lookup_insert_ne by done ];
  cbn [arrays_at];
  rewrite ?length_insert, ?length_written;
  rewrite ?list_lookup_insert_ne by lia;
  first
    [ apply Hlen
    | apply list_lookup_insert_eq; rewrite ?length_insert, ?length_written; apply Hlen
    | apply lookup_written_le; [lia | first [apply Hlen | eapply Nat.lt_trans; [|apply Hlen]; lia]]
    | apply lookup_at_index; first [apply Hlen | eapply Nat.lt_trans; [|apply Hlen]; lia]
    | eapply Nat.lt_trans; [|apply Hlen]; lia ].

Ltac py_step Hlen :=
  try rewrite bind_run;
  lazymatch goal with
  | |- context [py_div ?a ?b ?ns] => rewrite (py_div_ok a b ns) by assumption
  | |- context [load ?s ?i (to_ns ?A ?ns)] =>
      let x := name_of s in
      erewrite (load_named x s i _ A ns); [ | reflexivity | array_side Hlen ]
  | |- context [store ?s ?i ?v (to_ns ?A ?ns)] =>
      let x := name_of s in
      rewrite (store_named x s i v A ns); [ | reflexivity | array_side Hlen ]
  end.

Lemma loop_body_step Ts tau Kp Ki Kd A ns i :
  is_zero tau = false →
  (∀ x, (S i < length (A x))%nat) →
  loop_body Ts tau Kp Ki Kd i (to_ns (arrays_at Ts tau Kp Ki Kd i A) ns)
  = (Done (), to_ns (arrays_at Ts tau Kp Ki Kd (S i) A) ns).
Proof.
  intros Htau Hlen. unfold loop_body. rewrite !Nat.add_1_r.
  do 23 py_step Hlen.
  f_equal. apply to_ns_ext. intros x.
  destruct x;
    repeat first [ rewrite fn_lookup_insert | rewrite fn_lookup_insert_ne by done ];
    cbn [arrays_at]; try reflexivity;
    rewrite <- insert_written; reflexivity.
Qed.

(** *** The whole loop *)

Lemma for_range_loop_body Ts tau Kp Ki Kd A ns k lo :
  is_zero tau = false →
  (∀ x, (lo + k < length (A x))%nat) →
  for_range (loop_body Ts tau Kp Ki Kd) lo k
    (to_ns (arrays_at Ts tau Kp Ki Kd lo A) ns)
  = (Done (), to_ns (arrays_at Ts tau Kp Ki Kd (lo + k) A) ns).
Proof.
  intros Htau. revert lo. induction k as [|k IH]; intros lo Hlen.
  - by rewrite Nat.add_0_r.
  - cbn [for_range]. rewrite bind_run.
    rewrite loop_body_step; [ | done | intros x; specialize (Hlen x); lia ].
    rewrite IH; [ | intros x; specialize (Hlen x); lia ].
    by rewrite Nat.add_succ_r.
Qed.

Lemma arrays_at_0 Ts tau Kp Ki Kd A x : arrays_at Ts tau Kp Ki Kd 0 A x = A x.
Proof. destruct x; cbn [arrays_at]; try done; by apply written_0. Qed.


Lemma item_to_ns A ns x i : item (to_ns A ns) (var x) i = A x !! i.
Proof. unfold item. by rewrite to_ns_lookup. Qed.

(** *** The cell "Step response" *)

Lemma np_full_ok (v : T) k ns :
  0 ≤ k → np_full v k ns = (Done (replicate (Z.to_nat k) v), ns).
Proof.
  intros Hk. unfold np_full. by destruct (Z.ltb_spec k 0); [lia|].
Qed.

Lemma step_response_ok n_samples ns :
  0 ≤ n_samples + 1 →
  step_response n_samples ns = (Done (), to_ns (fresh_arrays n_samples) ns).
Proof.
  intros Hn. unfold step_response, np_ones, np_zeros.
  do 7 (rewrite bind_run, np_full_ok by done; rewrite bind_run; cbn [assign]).
  rewrite bind_run, np_full_ok by done. reflexivity.
Qed.

Lemma step_response_negative n_samples ns :
  n_samples + 1 < 0 → step_response n_samples ns = (Raised ValueError, ns).
Proof.
  intros Hn. unfold step_response, np_ones, np_zeros.
  rewrite bind_run. unfold np_full.
  by destruct (Z.ltb_spec (n_samples + 1) 0); [|lia].
Qed.

Lemma length_fresh_arrays n_samples x :
  length (fresh_arrays n_samples x) = Z.to_nat (n_samples + 1).
Proof. destruct x; cbn; rewrite ?length_fmap; apply length_replicate. Qed.

Lemma length_arrays_at Ts tau Kp Ki Kd k A x :
  length (arrays_at Ts tau Kp Ki Kd k A x) = length (A x).
Proof. destruct x; cbn [arrays_at]; by rewrite ?length_written. Qed.

(** *** The two cells together *)

Lemma simulate_done Ts tau Kp Ki Kd n_samples ns :
  0 ≤ n_samples + 1 →
  is_zero tau = false ∨ n_samples ≤ 0 →
  simulate Ts tau Kp Ki Kd n_samples ns
  = (Done (), to_ns (arrays_at Ts tau Kp Ki Kd (Z.to_nat n_samples)
                       (fresh_arrays n_samples)) ns).
Proof.
  intros Hn Hok. unfold simulate. rewrite bind_run, step_response_ok by done.
  unfold simulation_loop.
  rewrite <- (to_ns_ext (arrays_at Ts tau Kp Ki Kd 0 (fresh_arrays n_samples)))
    by apply arrays_at_0.
  destruct (decide (n_samples ≤ 0)) as [Hle | Hpos].
  - replace (Z.to_nat n_samples) with O by lia. reflexivity.
  - destruct Hok as [Htau | Hle]; [|lia].
    rewrite for_range_loop_body; [done | done |].
    intros x. rewrite length_fresh_arrays. lia.
Qed.

Lemma simulate_zero_tau Ts tau Kp Ki Kd n_samples ns :
  1 ≤ n_samples → is_zero tau = true →
  simulate Ts tau Kp Ki Kd n_samples ns
  = (Raised ZeroDivisionError, to_ns (fresh_arrays n_samples) ns).
Proof.
  intros Hn Htau. unfold simulate. rewrite bind_run, step_response_ok by lia.
  unfold simulation_loop.
  destruct (Z.to_nat n_samples) as [|k] eqn:E; [lia|].
  cbn [for_range]. rewrite bind_run. unfold loop_body.
  rewrite bind_run, py_div_zero by done. reflexivity.
Qed.

Lemma simulate_negative Ts tau Kp Ki Kd n_samples ns :
  n_samples + 1 < 0 →
  simulate Ts tau Kp Ki Kd n_samples ns = (Raised ValueError, ns).
Proof.
  intros Hn. unfold simulate. by rewrite bind_run, step_response_negative.
Qed.

(** *** The loop on given arrays, and run again *)

(** The loop on any arrays that are long enough. *)
Lemma simulation_loop_done Ts tau Kp Ki Kd n_samples A ns :
  is_zero tau = false →
  (∀ x, (Z.to_nat n_samples < length (A x))%nat) →
  simulation_loop Ts tau Kp Ki Kd n_samples (to_ns A ns)
  = (Done (), to_ns (arrays_at Ts tau Kp Ki Kd (Z.to_nat n_samples) A) ns).
Proof.
  intros Htau Hlen. unfold simulation_loop.
  rewrite <- (to_ns_ext (arrays_at Ts tau Kp Ki Kd 0 A)) by apply arrays_at_0.
  by rewrite for_range_loop_body.
Qed.

Lemma at_index_written_0 k (f : nat → T) a :
  f O = at_index a 0 → at_index (written k f a) 0 = at_index a 0.
Proof.
  intros E. unfold at_index at 1. destruct a as [|v a]; [done|].
  rewrite lookup_written_le by (cbn; lia). by rewrite E.
Qed.

Lemma written_written k (f : nat → T) a :
  written k f (written k f a) = written k f a.
Proof.
  apply list_eq. intros j. unfold written. rewrite !list_lookup_imap.
  destruct (a !! j); [|done]. cbn. by case_decide.
Qed.

Lemma traj_of_arrays_at Ts tau Kp Ki Kd k A :
  traj_of Ts tau Kp Ki Kd (arrays_at Ts tau Kp Ki Kd k A)
  = traj_of Ts tau Kp Ki Kd A.
Proof.
  unfold traj_of. cbn [arrays_at]. f_equal.
  unfold sample0. cbn [arrays_at]. f_equal; by apply at_index_written_0.
Qed.

Lemma arrays_at_idem Ts tau Kp Ki Kd k A x :
  arrays_at Ts tau Kp Ki Kd k (arrays_at Ts tau Kp Ki Kd k A) x
  = arrays_at Ts tau Kp Ki Kd k A x.
Proof.
  destruct x; cbn [arrays_at]; try done;
    fold (arrays_at Ts tau Kp Ki Kd k A);
    rewrite traj_of_arrays_at; apply written_written.
Qed.

(** The loop run again on the arrays it has left changes nothing. *)
Lemma simulation_loop_rerun Ts tau Kp Ki Kd n_samples A ns :
  is_zero tau = false →
  (∀ x, (Z.to_nat n_samples < length (A x))%nat) →
  simulation_loop Ts tau Kp Ki Kd n_samples
    (to_ns (arrays_at Ts tau Kp Ki Kd (Z.to_nat n_samples) A) ns)
  = (Done (), to_ns (arrays_at Ts tau Kp Ki Kd (Z.to_nat n_samples) A) ns).
Proof.
  intros Htau Hlen. rewrite simulation_loop_done; [| done |].
  - f_equal. apply to_ns_ext, arrays_at_idem.
  - intros x. by rewrite length_arrays_at.
Qed.

(** *** Every case of a run *)

(** A run, case by case. *)
Lemma simulate_cases Ts tau Kp Ki Kd n_samples ns :
  simulate Ts tau Kp Ki Kd n_samples ns
  = if n_samples + 1 <? 0 then (Raised ValueError, ns)
    else if (1 <=? n_samples) && is_zero tau
         then (Raised ZeroDivisionError, to_ns (fresh_arrays n_samples) ns)
         else (Done (), to_ns (arrays_at Ts tau Kp Ki Kd (Z.to_nat n_samples)
                                 (fresh_arrays n_samples)) ns).
Proof.
  destruct (Z.ltb_spec (n_samples + 1) 0) as [Hneg | Hnn].
  { by apply simulate_negative. }
  destruct (Z.leb_spec 1 n_samples) as [Hpos | Hsmall]; cbn [andb].
  - destruct (is_zero tau) eqn:Htau.
    + by apply simulate_zero_tau.
    + apply simulate_done; [done | by left].
  - apply simulate_done; [done | right; lia].
Qed.

Lemma np_arange_cases (start stop step : T) ns :
  np_arange start stop step ns
  = if is_zero step then (Raised ZeroDivisionError, ns)
    else match safe_ceil (div (sub stop start) step) with
         | Raised err => (Raised err, ns)
         | Done len => (Done (arange_values start step len), ns)
         end.
Proof.
  unfold np_arange. rewrite bind_run. unfold py_div.
  destruct (is_zero step); [done|]. cbn [py_ret]. rewrite bind_run.
  unfold py_lift. by destruct (safe_ceil _).
Qed.

(** The notebook, case by case. *)
Lemma notebook_cases (c : Config T) ns :
  notebook c ns
  = if is_zero (Fs c) then (Raised ZeroDivisionError, ns)
    else
      let Ts := div (of_int 1) (Fs c) in
      if is_zero Ts then (Raised ZeroDivisionError, ns)
      else match math_floor (div (Tf c) Ts) with
           | Raised err => (Raised err, ns)
           | Done n_samples =>
               match safe_ceil (div (sub (Tf c) (Ti c)) Ts) with
               | Raised err => (Raised err, ns)
               | Done len =>
                   let ns_t := <["t" := arange_values (Ti c) Ts len]> ns in
                   match simulate Ts (tau c) (Kp c) (Ki c) (Kd c) n_samples ns_t with
                   | (Done _, ns') => (Done (Ts, n_samples), ns')
                   | (Raised err, ns') => (Raised err, ns')
                   end
               end
           end.
Proof.
  unfold notebook. rewrite bind_run. unfold py_div at 1.
  destruct (is_zero (Fs c)); [done|]. cbn [py_ret]. cbn zeta.
  rewrite bind_run. unfold py_div at 1.
  destruct (is_zero (div (of_int 1) (Fs c))) eqn:HTs; [done|]. cbn [py_ret].
  rewrite bind_run. unfold py_lift at 1.
  destruct (math_floor _) as [n_samples | err]; [|done].
  rewrite bind_run, np_arange_cases, HTs.
  destruct (safe_ceil _) as [len | err]; [|done].
  rewrite bind_run. cbn [assign]. rewrite bind_run.
  destruct (simulate _ _ _ _ _ _ _) as [[[] | err] ns']; reflexivity.
Qed.

End Refinement.

(** Closed facts about small concrete runs are settled by evaluation. *)
Ltac by_computation :=
  cbv zeta;
  repeat lazymatch goal with |- _ ∧ _ => split end;
  vm_compute; reflexivity.

Lemma pair_eq_inv {A B} (a a' : A) (b b' : B) :
  (a, b) = (a', b') → a = a' ∧ b = b'.
Proof. by intros [= -> ->]. Qed.

(** ** The two number systems obey the interface's laws *)

Lemma float_pos_nonzero (x : float) :
  PrimFloat.ltb (float_of_int 0) x = true → float_is_zero x = false.
Proof.
  unfold float_is_zero. rewrite FloatAxioms.ltb_spec, FloatAxioms.eqb_spec.
  change (Prim2SF (float_of_int 0)) with (S754_zero false).
  change (Prim2SF 0%float) with (S754_zero false).
  destruct (Prim2SF x) as [s | s | | s m e]; try destruct s; cbn; congruence.
Qed.

#[export] Instance float_NumLaws : NumLaws float.
Proof.
  split.
  - exact float_pos_nonzero.
  - reflexivity.
  - reflexivity.
Qed.

Lemma Q_pos_nonzero (x : Q) : Q_ltb (Q_of_int 0) x = true → Q_is_zero x = false.
Proof.
  unfold Q_ltb, Q_is_zero, Q_of_int. intros Hlt.
  apply negb_true_iff in Hlt. apply not_true_iff_false. intros Hz.
  apply Qeq_bool_iff in Hz. apply not_true_iff_false in Hlt. apply Hlt.
  apply Qle_bool_iff. rewrite Hz. apply Qle_refl.
Qed.

#[export] Instance Q_NumLaws : NumLaws Q.
Proof.
  split.
  - exact Q_pos_nonzero.
  - reflexivity.
  - reflexivity.
Qed.

(** ** What a run computes *)

Section Run.
Context {T : Type} `{NumLaws T}.
Implicit Types (A : Arrays T) (ns : Namespace T) (a : list T).

Lemma at_index_replicate (v : T) k i :
  (i < k)%nat → at_index (replicate k v) i = v.
Proof. intros Hi. unfold at_index. by rewrite lookup_replicate_2. Qed.

Lemma sample0_fresh n_samples :
  sample0 (fresh_arrays n_samples)
  = {| s_y_open_loop := of_int 0; s_y := of_int 0; s_e := of_int 0;
       s_int_e := of_int 0; s_diff_e := of_int 0; s_m_cont := of_int 0 |}.
Proof.
  unfold sample0, fresh_arrays, at_index.
  destruct (Z.to_nat (n_samples + 1)); reflexivity.
Qed.

Lemma fresh_m n_samples i :
  (i < Z.to_nat (n_samples + 1))%nat →
  fresh_arrays n_samples N_m !! i = Some (of_int 1).
Proof. intros Hi. cbn. by apply lookup_replicate_2. Qed.

Lemma fresh_y_sp n_samples i :
  (i < Z.to_nat (n_samples + 1))%nat →
  fresh_arrays n_samples N_y_sp !! i = Some (of_int 2).
Proof.
  intros Hi. cbn. rewrite list_lookup_fmap, lookup_replicate_2 by done.
  cbn. by rewrite two_ones.
Qed.

(** The entries of the arrays when the loop is over. *)
Lemma final_lookup Ts tau Kp Ki Kd n_samples (j : nat) :
  0 ≤ n_samples → (Z.of_nat j ≤ n_samples) →
  let F := arrays_at Ts tau Kp Ki Kd (Z.to_nat n_samples) (fresh_arrays n_samples) in
  let tr := traj_of Ts tau Kp Ki Kd (fresh_arrays n_samples) in
  F N_m !! j = Some (of_int 1) ∧
  F N_y_sp !! j = Some (of_int 2) ∧
  F N_y_open_loop !! j = Some (s_y_open_loop (tr j)) ∧
  F N_y !! j = Some (s_y (tr j)) ∧
  F N_e !! j = Some (s_e (tr j)) ∧
  F N_int_e !! j = Some (s_int_e (tr j)) ∧
  F N_diff_e !! j = Some (s_diff_e (tr j)) ∧
  F N_m_cont !! j = Some (s_m_cont (tr j)).
Proof.
  intros Hn Hj F tr. subst F tr. cbn [arrays_at].
  repeat split;
    first [ apply fresh_m; lia | apply fresh_y_sp; lia
          | rewrite lookup_written_le; [done | lia | rewrite length_fresh_arrays; lia] ].
Qed.

Lemma traj_of_fresh_S Ts tau Kp Ki Kd n_samples (i : nat) :
  (Z.of_nat i < n_samples) →
  traj_of Ts tau Kp Ki Kd (fresh_arrays n_samples) (S i)
  = next_sample Ts tau Kp Ki Kd (of_int 1) (of_int 2)
      (traj_of Ts tau Kp Ki Kd (fresh_arrays n_samples) i).
Proof.
  intros Hi. unfold traj_of. cbn [traj]. f_equal.
  - unfold at_index. rewrite fresh_m by lia. done.
  - unfold at_index. rewrite fresh_y_sp by lia. done.
Qed.

(** A run with a positive time constant and at least one step ends
    normally, with the arrays of the recurrences in the namespace. *)
Lemma simulate_valid Ts tau Kp Ki Kd n_samples ns :
  ltb (of_int 0) tau = true → 1 ≤ n_samples →
  simulate Ts tau Kp Ki Kd n_samples ns
  = (Done (), to_ns (arrays_at Ts tau Kp Ki Kd (Z.to_nat n_samples)
                       (fresh_arrays n_samples)) ns).
Proof.
  intros Htau Hn. apply simulate_done; [lia|]. left. by apply pos_nonzero.
Qed.

(** C1: for a valid configuration and every step [i] from 0 to
    [n_samples - 1], the open-loop output obeys
    [y_open_loop[i+1] = (1 - Ts/tau)*y_open_loop[i] + (Ts/tau)*m[i]] with
    the constant forcing input [m[i] = 1], and the closed-loop output obeys
    [y[i+1] = (1 - Ts/tau)*y[i] + (Ts/tau)*m_cont[i]], [m_cont[i]] being the
    controller output of the previous step.  (The notebook's array [m] is
    the forcing input, [u_open] in the specification; its array [m_cont]
    is the controller output, [m] in the specification.) *)
Theorem plant_recurrences Ts tau Kp Ki Kd n_samples ns :
  ltb (of_int 0) Ts = true → ltb (of_int 0) tau = true → 1 ≤ n_samples →
  ∃ ns', simulate Ts tau Kp Ki Kd n_samples ns = (Done (), ns') ∧
    ∀ i : nat, Z.of_nat i < n_samples →
      ∃ yo yc mc,
        item ns' "y_open_loop" i = Some yo ∧
        item ns' "m" i = Some (of_int 1) ∧
        item ns' "y_open_loop" (i + 1)
        = Some (add (mul (sub (of_int 1) (div Ts tau)) yo)
                    (mul (div Ts tau) (of_int 1))) ∧
        item ns' "y" i = Some yc ∧
        item ns' "m_cont" i = Some mc ∧
        item ns' "y" (i + 1)
        = Some (add (mul (sub (of_int 1) (div Ts tau)) yc)
                    (mul (div Ts tau) mc)).
Proof.
  intros _ Htau Hn. eexists. split; [by apply simulate_valid|].
  intros i Hi. rewrite Nat.add_1_r.
  destruct (final_lookup Ts tau Kp Ki Kd n_samples i)
    as (Hm & _ & Hyo & Hy & _ & _ & _ & Hmc); [lia.. |].
  destruct (final_lookup Ts tau Kp Ki Kd n_samples (S i))
    as (_ & _ & Hyo' & Hy' & _); [lia.. |].
  rewrite traj_of_fresh_S in Hyo', Hy' by done.
  eexists _, _, _.
  rewrite (item_to_ns _ _ N_y_open_loop), (item_to_ns _ _ N_m),
    (item_to_ns _ _ N_y), (item_to_ns _ _ N_m_cont).
  rewrite (item_to_ns _ _ N_y_open_loop), (item_to_ns _ _ N_y).
  repeat split; eassumption.
Qed.


(** C2: for a valid configuration and every step [i] from 0 to
    [n_samples - 1], the controller side obeys
    [e[i+1] = y_sp[i+1] - y[i+1]], [int_e[i+1] = int_e[i] + Ts*e[i+1]],
    [diff_e[i+1] = (e[i+1] - e[i])/Ts] and
    [m_cont[i+1] = Kp*e[i+1] + Ki*int_e[i+1] + Kd*diff_e[i+1]]. *)
Theorem controller_recurrences Ts tau Kp Ki Kd n_samples ns :
  ltb (of_int 0) Ts = true → ltb (of_int 0) tau = true → 1 ≤ n_samples →
  ∃ ns', simulate Ts tau Kp Ki Kd n_samples ns = (Done (), ns') ∧
    ∀ i : nat, Z.of_nat i < n_samples →
      ∃ r1 y1 e0 e1 ie0 ie1 de1,
        item ns' "y_sp" (i + 1) = Some r1 ∧
        item ns' "y" (i + 1) = Some y1 ∧
        item ns' "e" i = Some e0 ∧
        item ns' "e" (i + 1) = Some e1 ∧
        item ns' "int_e" i = Some ie0 ∧
        item ns' "int_e" (i + 1) = Some ie1 ∧
        item ns' "diff_e" (i + 1) = Some de1 ∧
        e1 = sub r1 y1 ∧
        ie1 = add ie0 (mul Ts e1) ∧
        de1 = div (sub e1 e0) Ts ∧
        item ns' "m_cont" (i + 1)
        = Some (add (add (mul Kp e1) (mul Ki ie1)) (mul Kd de1)).
Proof.
  intros _ Htau Hn. eexists. split; [by apply simulate_valid|].
  intros i Hi. rewrite Nat.add_1_r.
  destruct (final_lookup Ts tau Kp Ki Kd n_samples i)
    as (_ & _ & _ & _ & He & Hie & _ & _); [lia.. |].
  destruct (final_lookup Ts tau Kp Ki Kd n_samples (S i))
    as (_ & Hr' & _ & Hy' & He' & Hie' & Hde' & Hmc'); [lia.. |].
  rewrite traj_of_fresh_S in Hy', He', Hie', Hde', Hmc' by done.
  eexists _, _, _, _, _, _, _.
  rewrite (item_to_ns _ _ N_y_sp), (item_to_ns _ _ N_y), !(item_to_ns _ _ N_e),
    !(item_to_ns _ _ N_int_e), (item_to_ns _ _ N_diff_e),
    (item_to_ns _ _ N_m_cont).
  repeat split; try eassumption; reflexivity.
Qed.

(** The eight arrays of a run have [n_samples + 1] entries. *)
Lemma trajectory_lengths Ts tau Kp Ki Kd n_samples ns :
  ltb (of_int 0) tau = true → 1 ≤ n_samples →
  ∃ ns', simulate Ts tau Kp Ki Kd n_samples ns = (Done (), ns') ∧
    ∀ x : name, ∃ a, ns' !! var x = Some a ∧
                     Z.of_nat (length a) = n_samples + 1.
Proof.
  intros Htau Hn. eexists. split; [by apply simulate_valid|].
  intros x. eexists. split; [apply to_ns_lookup|].
  rewrite length_arrays_at, length_fresh_arrays. lia.
Qed.

(** C5: for a valid configuration, index 0 of the six trajectories
    (open-loop output, closed-loop output, error, integral, derivative and
    controller output [m_cont]) is the zero initial condition, and the
    setpoint array holds its constant, nonzero value 2 there. *)
Theorem initial_conditions Ts tau Kp Ki Kd n_samples ns :
  ltb (of_int 0) Ts = true → ltb (of_int 0) tau = true → 1 ≤ n_samples →
  ∃ ns', simulate Ts tau Kp Ki Kd n_samples ns = (Done (), ns') ∧
    item ns' "y_open_loop" 0 = Some (of_int 0) ∧
    item ns' "y" 0 = Some (of_int 0) ∧
    item ns' "e" 0 = Some (of_int 0) ∧
    item ns' "int_e" 0 = Some (of_int 0) ∧
    item ns' "diff_e" 0 = Some (of_int 0) ∧
    item ns' "m_cont" 0 = Some (of_int 0) ∧
    item ns' "y_sp" 0 = Some (of_int 2) ∧
    is_zero (of_int 2) = false.
Proof.
  intros _ Htau Hn. eexists. split; [by apply simulate_valid|].
  destruct (final_lookup Ts tau Kp Ki Kd n_samples 0)
    as (_ & Hr & Hyo & Hy & He & Hie & Hde & Hmc); [lia.. |].
  unfold traj_of in *. cbn [traj] in *. rewrite sample0_fresh in *.
  cbn in Hyo, Hy, He, Hie, Hde, Hmc.
  rewrite (item_to_ns _ _ N_y_sp), (item_to_ns _ _ N_y), (item_to_ns _ _ N_e),
    (item_to_ns _ _ N_int_e), (item_to_ns _ _ N_diff_e),
    (item_to_ns _ _ N_m_cont), (item_to_ns _ _ N_y_open_loop).
  repeat split; try assumption. apply two_nonzero.
Qed.

End Run.
Lemma plant_recurrences_witness :
  let c := notebook_config in
  let Ts := div (of_int 1) (Fs c) in
  ∃ ns', simulate Ts (tau c) (Kp c) (Ki c) (Kd c) 3 ∅ = (Done (), ns') ∧
    ∀ i : nat, Z.of_nat i < 3 →
      ∃ yo yc mc : float,
        item ns' "y_open_loop" i = Some yo ∧
        item ns' "m" i = Some (of_int 1) ∧
        item ns' "y_open_loop" (i + 1)
        = Some (add (mul (sub (of_int 1) (div Ts (tau c))) yo)
                    (mul (div Ts (tau c)) (of_int 1))) ∧
        item ns' "y" i = Some yc ∧
        item ns' "m_cont" i = Some mc ∧
        item ns' "y" (i + 1)
        = Some (add (mul (sub (of_int 1) (div Ts (tau c))) yc)
                    (mul (div Ts (tau c)) mc)).
Proof. apply plant_recurrences; [reflexivity | reflexivity | lia]. Defined.

Lemma controller_recurrences_witness :
  let c := notebook_config in
  let Ts := div (of_int 1) (Fs c) in
  ∃ ns', simulate Ts (tau c) (Kp c) (Ki c) (Kd c) 3 ∅ = (Done (), ns') ∧
    ∀ i : nat, Z.of_nat i < 3 →
      ∃ r1 y1 e0 e1 ie0 ie1 de1 : float,
        item ns' "y_sp" (i + 1) = Some r1 ∧
        item ns' "y" (i + 1) = Some y1 ∧
        item ns' "e" i = Some e0 ∧
        item ns' "e" (i + 1) = Some e1 ∧
        item ns' "int_e" i = Some ie0 ∧
        item ns' "int_e" (i + 1) = Some ie1 ∧
        item ns' "diff_e" (i + 1) = Some de1 ∧
        e1 = sub r1 y1 ∧
        ie1 = add ie0 (mul Ts e1) ∧
        de1 = div (sub e1 e0) Ts ∧
        item ns' "m_cont" (i + 1)
        = Some (add (add (mul (Kp c) e1) (mul (Ki c) ie1)) (mul (Kd c) de1)).
Proof. apply controller_recurrences; [reflexivity | reflexivity | lia]. Defined.

Lemma initial_conditions_witness :
  let c := notebook_config in
  let Ts := div (of_int 1) (Fs c) in
  ∃ ns', simulate Ts (tau c) (Kp c) (Ki c) (Kd c) 1000 ∅ = (Done (), ns') ∧
    item ns' "y_open_loop" 0 = Some (of_int 0) ∧
    item ns' "y" 0 = Some (of_int 0) ∧
    item ns' "e" 0 = Some (of_int 0) ∧
    item ns' "int_e" 0 = Some (of_int 0) ∧
    item ns' "diff_e" 0 = Some (of_int 0) ∧
    item ns' "m_cont" 0 = Some (of_int 0) ∧
    item ns' "y_sp" 0 = Some (of_int 2) ∧
    is_zero (of_int 2 : float) = false.
Proof. apply initial_conditions; [reflexivity | reflexivity | lia]. Defined.

(** ** Failures, and what a run leaves behind *)

Section Outcomes.
Context {T : Type} `{Num T}.
Implicit Types (A : Arrays T) (ns : Namespace T) (a : list T).

(** C3, as the code has it: the cells validate nothing and there is no
    [InvalidConfiguration]; a run raises exactly when [n_samples + 1] is
    negative (numpy's [ValueError], at the first allocation, the namespace
    untouched) or when [tau == 0] and there is at least one step
    ([ZeroDivisionError] in the first pass of the loop, the arrays
    allocated and not one entry written); the gains play no part. *)
Theorem simulate_raises_iff Ts tau Kp Ki Kd n_samples ns :
  (∀ err, fst (simulate Ts tau Kp Ki Kd n_samples ns) = Raised err ↔
          (err = ValueError ∧ n_samples + 1 < 0) ∨
          (err = ZeroDivisionError ∧ 1 ≤ n_samples ∧ is_zero tau = true)) ∧
  (n_samples + 1 < 0 → snd (simulate Ts tau Kp Ki Kd n_samples ns) = ns) ∧
  (1 ≤ n_samples → is_zero tau = true →
   snd (simulate Ts tau Kp Ki Kd n_samples ns)
   = to_ns (fresh_arrays n_samples) ns).
Proof.
  rewrite simulate_cases. split; [|split].
  - intros err.
    destruct (Z.ltb_spec (n_samples + 1) 0) as [Hneg | Hnn]; cbn [fst].
    { split; [intros [= <-]; by left | intros [[-> _] | [_ [? _]]]; [done | lia]]. }
    destruct (Z.leb_spec 1 n_samples) as [Hpos | Hsmall]; cbn [andb].
    + destruct (is_zero tau) eqn:Htau; cbn [fst].
      * split; [intros [= <-]; by right | intros [[_ ?] | [-> _]]; [lia | done]].
      * split; [done | intros [[_ ?] | [_ [_ ?]]]; [lia | done]].
    + cbn [fst]. split; [done | intros [[_ ?] | [_ [? _]]]; lia].
  - intros Hneg. by destruct (Z.ltb_spec (n_samples + 1) 0); [|lia].
  - intros Hpos Htau. destruct (Z.ltb_spec (n_samples + 1) 0); [lia|].
    destruct (Z.leb_spec 1 n_samples); [|lia]. by rewrite Htau.
Qed.

(** Before the loop the notebook can fail in its first cells: [1 / Fs]
    and [Tf / Ts] raise on a zero divisor, [math.floor] and the length of
    [np.arange] raise on a NaN or an infinity; no array is bound by then
    (the numbers are: see [run_cells_cases]). *)
Lemma notebook_zero_Fs (c : Config T) ns :
  is_zero (Fs c) = true → notebook c ns = (Raised ZeroDivisionError, ns).
Proof. intros HFs. rewrite notebook_cases. by rewrite HFs. Qed.

Lemma notebook_raises (c : Config T) ns err :
  fst (notebook c ns) = Raised err →
  let Ts := div (of_int 1) (Fs c) in
  (is_zero (Fs c) = true ∧ err = ZeroDivisionError ∧ snd (notebook c ns) = ns) ∨
  (is_zero Ts = true ∧ err = ZeroDivisionError ∧ snd (notebook c ns) = ns) ∨
  (math_floor (div (Tf c) Ts) = Raised err ∧ snd (notebook c ns) = ns) ∨
  (safe_ceil (div (sub (Tf c) (Ti c)) Ts) = Raised err ∧
   snd (notebook c ns) = ns) ∨
  (∃ n_samples t,
     math_floor (div (Tf c) Ts) = Done n_samples ∧
     fst (simulate Ts (tau c) (Kp c) (Ki c) (Kd c) n_samples (<["t" := t]> ns))
     = Raised err).
Proof.
  rewrite notebook_cases. cbn zeta.
  destruct (is_zero (Fs c)); [intros [= <-]; by left|].
  destruct (is_zero _); [intros [= <-]; right; by left|].
  destruct (math_floor _) as [n | err1]; [|intros [= <-]; do 2 right; by left].
  destruct (safe_ceil _) as [len | err2]; [|intros [= <-]; do 3 right; by left].
  destruct (simulate _ _ _ _ _ _ _) as [[[] | err3] ns'] eqn:Hsim; [done|].
  intros [= <-]. do 4 right. eexists _, _. split; [done|]. by rewrite Hsim.
Qed.

(** The time base of a notebook run that ends normally. *)
Lemma time_base_entries (c : Config T) ns Ts n_samples ns' :
  notebook c ns = (Done (Ts, n_samples), ns') →
  ∃ len t, safe_ceil (div (sub (Tf c) (Ti c)) Ts) = Done len ∧
           ns' !! "t" = Some t ∧
           length t = Z.to_nat len ∧
           ∀ i : nat, (i < length t)%nat →
                      t !! i = Some (arange_item (Ti c) Ts i).
Proof.
  rewrite notebook_cases. destruct (is_zero (Fs c)); [done|]. cbn zeta.
  destruct (is_zero _); [done|].
  destruct (math_floor _) as [n | err]; [|done].
  destruct (safe_ceil _) as [len | err] eqn:Hlen; [|done].
  rewrite simulate_cases.
  destruct (_ <? _); [done|]. destruct (_ && _); [done|].
  intros [= <- <- <-]. exists len, (arange_values (Ti c) (div (of_int 1) (Fs c)) len).
  split; [done|]. split.
  { rewrite to_ns_lookup_other by (by intros []). apply lookup_insert_eq. }
  unfold arange_values. rewrite length_fmap, length_seq. split; [done|].
  intros i Hi. rewrite list_lookup_fmap, lookup_seq_lt by done. reflexivity.
Qed.

(** The loop of a notebook run is a run of [simulate] with the sampling
    period and the number of samples that the first cells computed. *)
Lemma notebook_simulate (c : Config T) ns Ts n_samples ns' :
  notebook c ns = (Done (Ts, n_samples), ns') →
  Ts = div (of_int 1) (Fs c) ∧
  math_floor (div (Tf c) Ts) = Done n_samples ∧
  ∃ t, simulate Ts (tau c) (Kp c) (Ki c) (Kd c) n_samples (<["t" := t]> ns)
       = (Done (), ns').
Proof.
  rewrite notebook_cases. destruct (is_zero (Fs c)); [done|]. cbn zeta.
  destruct (is_zero _); [done|].
  destruct (math_floor _) as [n | err] eqn:Hn; [|done].
  destruct (safe_ceil _) as [len | err]; [|done].
  destruct (simulate _ _ _ _ _ _ _) as [[[] | err] ns''] eqn:Hsim; [|done].
  intros [= <- <- <-]. split; [done|]. split; [done|]. by eexists.
Qed.

End Outcomes.

(** C3 fails as stated: with [tau = -1] (and [Ts = 1], one step) the run
    raises nothing and delivers its trajectories. *)
Lemma nonpositive_tau_is_accepted :
  let run := simulate (T:=float) 1%float (-1)%float 5%float 5%float
               0x1.999999999999ap-4%float 1 ∅ in
  leb (-1)%float (of_int 0) = true ∧
  fst run = Done () ∧
  snd run !! "y_open_loop" = Some [0%float; (-1)%float] ∧
  snd run !! "y" = Some [0%float; 0%float] ∧
  snd run !! "e" = Some [0%float; 2%float].
Proof. by_computation. Qed.

Lemma simulate_raises_iff_witness :
  let run := simulate 1%float 0%float 5%float 5%float
               0x1.999999999999ap-4%float 1 ∅ in
  fst run = Raised ZeroDivisionError ∧ snd run = to_ns (fresh_arrays 1) ∅.
Proof.
  pose proof (simulate_raises_iff 1%float 0%float 5%float 5%float
                0x1.999999999999ap-4%float 1 ∅) as (Hiff & _ & Hzero).
  split.
  - apply Hiff. right. split; [reflexivity|]. split; [lia | reflexivity].
  - apply Hzero; [lia | reflexivity].
Defined.

(** C4 on the code: with [Fs = 49] and [Tf = 1] the division [Tf / Ts]
    gives 49.00000000000001 in binary64, so [n_samples] is 49 and the
    eight arrays have 50 entries, but the time base has 50 points, not
    49. *)
Theorem time_base_too_long :
  let c := {| Fs := 49; Tf := 1; Ti := 0; tau := 2; Kp := 5; Ki := 5;
              Kd := 0x1.999999999999ap-4 |}%float in
  let run := notebook c ∅ in
  fst run = Done (PrimFloat.div 1 49, 49) ∧
  ltb (of_int 0) (PrimFloat.div 1 49) = true ∧
  ltb (of_int 0) (tau c) = true ∧
  length <$> snd run !! "t" = Some 50%nat ∧
  length <$> snd run !! "y_open_loop" = Some 50%nat.
Proof. by_computation. Qed.

(** The same with exact numbers: [Fs = 1], [Tf = 5/2] give two steps and
    three time points. *)
Lemma time_base_too_long_exact :
  let c := {| Fs := 1; Tf := 5 # 2; Ti := 0; tau := 2; Kp := 5; Ki := 5;
              Kd := 1 # 10 |}%Q in
  let run := notebook c ∅ in
  fst run = Done (1%Q, 2) ∧
  snd run !! "t" = Some [0; 1; 2]%Q ∧
  length <$> snd run !! "y" = Some 3%nat.
Proof. by_computation. Qed.

(** ** What each value depends on *)

Section Dependence.
Context {T : Type} `{NumLaws T}.
Implicit Types (A : Arrays T) (ns : Namespace T) (a : list T).

Lemma traj_agree Ts tau Kp Ki Kd (u1 r1 u2 r2 : nat → T) s0 (k : nat) :
  (∀ i, (i < k)%nat → u1 i = u2 i ∧ r1 i = r2 i) →
  ∀ j, (j < k)%nat →
       traj Ts tau Kp Ki Kd u1 r1 s0 j = traj Ts tau Kp Ki Kd u2 r2 s0 j.
Proof.
  intros Hin j. induction j as [|j IH]; intros Hj; [done|].
  cbn [traj]. rewrite IH by lia.
  destruct (Hin j) as [-> _]; [lia|]. destruct (Hin (S j)) as [_ ->]; done.
Qed.

Lemma at_index_agree a1 a2 i : a1 !! i = a2 !! i → at_index a1 i = at_index a2 i.
Proof. unfold at_index. by intros ->. Qed.

(** What the loop leaves below index [k] depends on the inputs below
    index [k] only. *)
Lemma arrays_at_prefix Ts tau Kp Ki Kd A1 A2 (k1 k2 k : nat) x (j : nat) :
  (∀ x, (k1 < length (A1 x))%nat) →
  (∀ x, (k2 < length (A2 x))%nat) →
  (∀ x, A1 x !! 0%nat = A2 x !! 0%nat) →
  (∀ i, (i < k)%nat →
        A1 N_m !! i = A2 N_m !! i ∧ A1 N_y_sp !! i = A2 N_y_sp !! i) →
  (j < k)%nat → (j ≤ k1)%nat → (j ≤ k2)%nat →
  arrays_at Ts tau Kp Ki Kd k1 A1 x !! j = arrays_at Ts tau Kp Ki Kd k2 A2 x !! j.
Proof.
  intros Hl1 Hl2 Hinit Hin Hj Hj1 Hj2.
  assert (Htr : traj_of Ts tau Kp Ki Kd A1 j = traj_of Ts tau Kp Ki Kd A2 j).
  { unfold traj_of.
    replace (sample0 A2) with (sample0 A1)
      by (unfold sample0; f_equal; apply at_index_agree, Hinit).
    apply (traj_agree _ _ _ _ _ _ _ _ _ _ k); [|done].
    intros i Hi. destruct (Hin i Hi). split; by apply at_index_agree. }
  pose proof (Hl1 x) as L1. pose proof (Hl2 x) as L2.
  destruct x; cbn [arrays_at]; try (by apply Hin);
    rewrite !lookup_written_le by lia; by rewrite Htr.
Qed.

(** C7: causality.  Two runs of the loop with the same [Ts], [tau] and
    gains, from arrays with the same initial conditions and with forcing
    input and setpoint that agree at the indices below [k], leave the
    same value at every index below [k] of every array (as far as both
    runs go), whatever the inputs are from index [k] on and however many
    steps each run makes. *)
Theorem causality Ts tau Kp Ki Kd A1 A2 ns1 ns2 (n1 n2 : Z) (k : nat) :
  is_zero tau = false →
  (∀ x, (Z.to_nat n1 < length (A1 x))%nat) →
  (∀ x, (Z.to_nat n2 < length (A2 x))%nat) →
  (∀ x, A1 x !! 0%nat = A2 x !! 0%nat) →
  (∀ i, (i < k)%nat →
        A1 N_m !! i = A2 N_m !! i ∧ A1 N_y_sp !! i = A2 N_y_sp !! i) →
  ∀ x (j : nat), (j < k)%nat → Z.of_nat j ≤ n1 → Z.of_nat j ≤ n2 →
    item (snd (simulation_loop Ts tau Kp Ki Kd n1 (to_ns A1 ns1))) (var x) j
    = item (snd (simulation_loop Ts tau Kp Ki Kd n2 (to_ns A2 ns2))) (var x) j.
Proof.
  intros Htau Hl1 Hl2 Hinit Hin x j Hj Hj1 Hj2.
  rewrite !simulation_loop_done by done. cbn [snd]. rewrite !item_to_ns.
  apply (arrays_at_prefix _ _ _ _ _ _ _ _ _ k); try done; lia.
Qed.

(** The same for whole runs: the number of steps is the one setting of
    the notebook that takes effect at a later index, and two valid runs of
    [n1] and [n2] steps agree at every index that both reach. *)
Lemma simulate_prefix Ts tau Kp Ki Kd (n1 n2 : Z) ns1 ns2 x (j : nat) :
  ltb (of_int 0) tau = true → 1 ≤ n1 → 1 ≤ n2 →
  Z.of_nat j ≤ n1 → Z.of_nat j ≤ n2 →
  item (snd (simulate Ts tau Kp Ki Kd n1 ns1)) (var x) j
  = item (snd (simulate Ts tau Kp Ki Kd n2 ns2)) (var x) j.
Proof.
  intros Htau Hn1 Hn2 Hj1 Hj2. rewrite !simulate_valid by done.
  cbn [snd]. rewrite !item_to_ns.
  apply (arrays_at_prefix _ _ _ _ _ _ _ _ _ (S j)).
  - intros y. rewrite length_fresh_arrays. lia.
  - intros y. rewrite length_fresh_arrays. lia.
  - intros y. destruct y; cbn [fresh_arrays];
      rewrite ?list_lookup_fmap, !lookup_replicate_2 by lia; done.
  - intros i Hi. cbn [fresh_arrays].
    rewrite !list_lookup_fmap, !lookup_replicate_2 by lia. done.
  - lia.
  - lia.
  - lia.
Qed.

(** The open-loop recurrence on its own. *)
Lemma open_loop_of_traj Ts tau Kp Ki Kd (u r : nat → T) s0 (k : nat) :
  s_y_open_loop (traj Ts tau Kp Ki Kd u r s0 k)
  = open_loop Ts tau u (s_y_open_loop s0) k.
Proof. induction k as [|k IH]; [done|]. cbn [traj open_loop]. by rewrite <- IH. Qed.

Lemma open_loop_ext Ts tau (u1 u2 : nat → T) y0 (k : nat) :
  (∀ i, (i < k)%nat → u1 i = u2 i) →
  open_loop Ts tau u1 y0 k = open_loop Ts tau u2 y0 k.
Proof.
  induction k as [|k IH]; intros Hu; [done|].
  cbn [open_loop]. rewrite IH by (intros i Hi; apply Hu; lia).
  by rewrite (Hu k) by lia.
Qed.

Lemma written_ext k (f g : nat → T) a :
  (∀ j, (j ≤ k)%nat → f j = g j) → written k f a = written k g a.
Proof.
  intros Hfg. unfold written. apply imap_ext. intros j v _. cbn.
  case_decide; [by apply Hfg | done].
Qed.

(** The open-loop array of a run: the open-loop recurrence under the unit
    input, from 0. *)
Lemma final_open_loop Ts tau Kp Ki Kd n_samples (j : nat) :
  Z.of_nat j ≤ n_samples →
  arrays_at Ts tau Kp Ki Kd (Z.to_nat n_samples) (fresh_arrays n_samples)
    N_y_open_loop !! j
  = Some (open_loop Ts tau (λ _, of_int 1) (of_int 0) j).
Proof.
  intros Hj. cbn [arrays_at].
  rewrite lookup_written_le by (rewrite ?length_fresh_arrays; lia).
  unfold traj_of. rewrite open_loop_of_traj, sample0_fresh. cbn [s_y_open_loop].
  f_equal. apply open_loop_ext. intros i Hi.
  apply at_index_replicate. lia.
Qed.

(** C10: the open-loop output does not depend on the controller.  Two
    valid runs that differ in the gains leave the same open-loop array,
    which is the open-loop recurrence under the unit input; and the loop
    started from arrays with the same forcing input and open-loop array
    leaves the same open-loop array whatever the gains and the setpoint
    array are. *)
Theorem open_loop_noninterference Ts tau n_samples
    Kp1 Ki1 Kd1 Kp2 Ki2 Kd2 ns1 ns2 :
  ltb (of_int 0) Ts = true → ltb (of_int 0) tau = true → 1 ≤ n_samples →
  snd (simulate Ts tau Kp1 Ki1 Kd1 n_samples ns1) !! "y_open_loop"
  = snd (simulate Ts tau Kp2 Ki2 Kd2 n_samples ns2) !! "y_open_loop" ∧
  (∀ j : nat, Z.of_nat j ≤ n_samples →
     item (snd (simulate Ts tau Kp1 Ki1 Kd1 n_samples ns1)) "y_open_loop" j
     = Some (open_loop Ts tau (λ _, of_int 1) (of_int 0) j)) ∧
  (∀ A1 A2,
     (∀ x, (Z.to_nat n_samples < length (A1 x))%nat) →
     (∀ x, (Z.to_nat n_samples < length (A2 x))%nat) →
     A1 N_m = A2 N_m → A1 N_y_open_loop = A2 N_y_open_loop →
     snd (simulation_loop Ts tau Kp1 Ki1 Kd1 n_samples (to_ns A1 ns1))
       !! "y_open_loop"
     = snd (simulation_loop Ts tau Kp2 Ki2 Kd2 n_samples (to_ns A2 ns2))
         !! "y_open_loop").
Proof.
  intros _ Htau Hn. pose proof (pos_nonzero _ Htau) as Hnz.
  assert (Hloop : ∀ A1 A2,
     (∀ x, (Z.to_nat n_samples < length (A1 x))%nat) →
     (∀ x, (Z.to_nat n_samples < length (A2 x))%nat) →
     A1 N_m = A2 N_m → A1 N_y_open_loop = A2 N_y_open_loop →
     arrays_at Ts tau Kp1 Ki1 Kd1 (Z.to_nat n_samples) A1 N_y_open_loop
     = arrays_at Ts tau Kp2 Ki2 Kd2 (Z.to_nat n_samples) A2 N_y_open_loop).
  { intros A1 A2 _ _ Em Ey. cbn [arrays_at]. rewrite Ey.
    apply written_ext. intros j _. unfold traj_of.
    rewrite !open_loop_of_traj. unfold sample0. cbn [s_y_open_loop].
    by rewrite Em, Ey. }
  split; [|split].
  - rewrite !simulate_valid by done. cbn [snd].
    rewrite !(to_ns_lookup _ _ N_y_open_loop). f_equal.
    apply Hloop; try done; intros x; rewrite length_fresh_arrays; lia.
  - intros j Hj. rewrite simulate_valid by done. cbn [snd].
    rewrite (item_to_ns _ _ N_y_open_loop). by apply final_open_loop.
  - intros A1 A2 Hl1 Hl2 Em Ey. rewrite !simulation_loop_done by done.
    cbn [snd]. rewrite !(to_ns_lookup _ _ N_y_open_loop). f_equal.
    by apply Hloop.
Qed.

End Dependence.

(** Two sets of arrays for four samples, the second with another setpoint
    from index 2 on, and runs of three and of two steps: the controller
    output at index 1 is the same. *)
Lemma causality_witness :
  let A1 : Arrays float := fresh_arrays 3 in
  let A2 : Arrays float :=
    <[N_y_sp := [2; 2; 7; 7]%float]> (fresh_arrays 3) in
  item (snd (simulation_loop (div (of_int 1) 100%float) 2%float 5%float
               5%float 0x1.999999999999ap-4%float 3 (to_ns A1 ∅)))
    (var N_m_cont) 1
  = item (snd (simulation_loop (div (of_int 1) 100%float) 2%float 5%float
                 5%float 0x1.999999999999ap-4%float 2 (to_ns A2 ∅)))
      (var N_m_cont) 1.
Proof.
  apply (causality _ _ _ _ _ _ _ _ _ _ _ 2).
  - reflexivity.
  - intros []; vm_compute; lia.
  - intros []; vm_compute; lia.
  - intros []; reflexivity.
  - intros [|[|i]] Hi; [split; reflexivity | split; reflexivity | lia].
  - lia.
  - lia.
  - lia.
Defined.

Lemma open_loop_noninterference_witness :
  let Ts : float := div (of_int 1) 100%float in
  let run1 := simulate Ts 2%float 5%float 5%float 0x1.999999999999ap-4%float
                1000 ∅ in
  let run2 := simulate Ts 2%float 0%float 0%float 0%float 1000 ∅ in
  snd run1 !! "y_open_loop" = snd run2 !! "y_open_loop" ∧
  (∀ j : nat, Z.of_nat j ≤ 1000 →
     item (snd run1) "y_open_loop" j
     = Some (open_loop Ts 2%float (λ _, of_int 1) (of_int 0) j)) ∧
  (∀ A1 A2 : Arrays float,
     (∀ x, (Z.to_nat 1000 < length (A1 x))%nat) →
     (∀ x, (Z.to_nat 1000 < length (A2 x))%nat) →
     A1 N_m = A2 N_m → A1 N_y_open_loop = A2 N_y_open_loop →
     snd (simulation_loop Ts 2%float 5%float 5%float
            0x1.999999999999ap-4%float 1000 (to_ns A1 ∅)) !! "y_open_loop"
     = snd (simulation_loop Ts 2%float 0%float 0%float 0%float 1000
              (to_ns A2 ∅)) !! "y_open_loop").
Proof. apply open_loop_noninterference; [reflexivity | reflexivity | lia]. Defined.

(** ** The open-loop plant in exact arithmetic *)

Section Exact.
Local Open Scope Q_scope.

Lemma Qpower_succ (q : Q) (k : nat) : q ^ Z.of_nat (S k) == q * q ^ Z.of_nat k.
Proof.
  rewrite Nat2Z.inj_succ, <- Z.add_1_l, Qpower_plus' by lia.
  by rewrite Qpower_1_r.
Qed.

(** The closed form of the open-loop recurrence under the unit input. *)
Lemma open_loop_closed_form (Ts tau : Q) (k : nat) :
  open_loop Ts tau (λ _, of_int 1) (of_int 0) k
  == 1 - (1 - Ts / tau) ^ Z.of_nat k.
Proof.
  induction k as [|k IH].
  - cbn. reflexivity.
  - cbn [open_loop add sub mul div of_int Q_Num].
    unfold Q_add, Q_sub, Q_mul, Q_div, Q_of_int.
    rewrite !Qred_correct, IH, Qpower_succ.
    change (inject_Z 1) with 1. set (q := Ts / tau). ring.
Qed.

(** [(1 - a)^k] is at most [1 / (1 + k*a)]. *)
Lemma decay_bound (a : Q) (k : nat) :
  0 <= a → a <= 1 →
  0 <= (1 - a) ^ Z.of_nat k ∧
  (1 - a) ^ Z.of_nat k * (1 + inject_Z (Z.of_nat k) * a) <= 1.
Proof.
  intros Ha0 Ha1. induction k as [|k [IH0 IH1]].
  - change (Z.of_nat 0) with 0%Z. rewrite Qpower_0_r.
    change (inject_Z 0) with 0. split; lra.
  - rewrite Qpower_succ, Nat2Z.inj_succ. unfold Z.succ.
    rewrite inject_Z_plus. change (inject_Z 1) with 1.
    set (p := (1 - a) ^ Z.of_nat k) in *.
    set (K := inject_Z (Z.of_nat k)) in *.
    assert (HK : 0 <= K).
    { unfold K. change 0 with (inject_Z 0). rewrite <- Zle_Qle. lia. }
    split; [apply Qmult_le_0_compat; lra|].
    assert (0 <= p * ((K + 1) * (a * a))) by (repeat apply Qmult_le_0_compat; lra).
    lra.
Qed.

(** The powers of [-2] from the first on are at least 2 in magnitude. *)
Lemma neg2_power (k : nat) :
  (1 <= k)%nat → 2 <= (-2) ^ Z.of_nat k ∨ (-2) ^ Z.of_nat k <= -2.
Proof.
  induction k as [|k IH]; [lia|]. intros _.
  rewrite Qpower_succ. destruct k as [|k].
  - right. change (Z.of_nat 0) with 0%Z. rewrite Qpower_0_r. lra.
  - destruct IH as [IH | IH]; [lia | right; lra | left; lra].
Qed.

Lemma Q_is_zero_pos (x : Q) : 0 < x → is_zero x = false.
Proof.
  intros Hx. apply pos_nonzero. cbn. unfold Q_ltb, Q_of_int.
  apply negb_true_iff, not_true_iff_false. rewrite Qle_bool_iff.
  change (inject_Z 0) with 0. lra.
Qed.

(** The open-loop array of a run, entry by entry. *)
Lemma open_loop_entry (Ts tau Kp Ki Kd : Q) (n_samples : Z) ns (k : nat) :
  0 < tau → (Z.of_nat k <= n_samples)%Z →
  ∃ ns' v,
    simulate Ts tau Kp Ki Kd n_samples ns = (Done (), ns') ∧
    item ns' "y_open_loop" k = Some v ∧
    v == 1 - (1 - Ts / tau) ^ Z.of_nat k.
Proof.
  intros Htau Hk. eexists _, _. split; [|split].
  - apply simulate_done; [lia | left; by apply Q_is_zero_pos].
  - rewrite (item_to_ns _ _ N_y_open_loop). by apply final_open_loop.
  - apply open_loop_closed_form.
Qed.

(** C8: a run with [Ts >= tau], of any number system, raises nothing and
    fills every entry of every array; in exact arithmetic with [Ts = 3],
    [tau = 1] the open-loop output is [1 - (-2)^k]: from the first step on
    consecutive values have opposite signs and the magnitude never
    decreases (it is at least twice the previous one less 3); and in
    binary64 six steps give 0, 3, -3, 9, -15, 33, -63. *)
Theorem unstable_plant_runs :
  (∀ (T : Type) (N : Num T) (L : NumLaws T) (Ts tau Kp Ki Kd : T)
     (n_samples : Z) (ns : Namespace T),
     ltb (of_int 0) Ts = true → ltb (of_int 0) tau = true →
     leb tau Ts = true → (1 <= n_samples)%Z →
     ∃ ns', simulate Ts tau Kp Ki Kd n_samples ns = (Done (), ns') ∧
            ∀ x (j : nat), (Z.of_nat j <= n_samples)%Z →
                           is_Some (item ns' (var x) j)) ∧
  (∀ (Kp Ki Kd : Q) (n_samples : Z) (ns : Namespace Q) (k : nat),
     (1 <= k)%nat → (Z.of_nat k < n_samples)%Z →
     ∃ ns' v w,
       simulate 3 1 Kp Ki Kd n_samples ns = (Done (), ns') ∧
       item ns' "y_open_loop" k = Some v ∧
       item ns' "y_open_loop" (k + 1) = Some w ∧
       v == 1 - (-2) ^ Z.of_nat k ∧
       v * w < 0 ∧
       Qabs v <= Qabs w ∧
       2 * Qabs v - 3 <= Qabs w) ∧
  (let run := simulate 3%float 1%float 5%float 5%float
                0x1.999999999999ap-4%float 6 ∅ in
   fst run = Done () ∧
   snd run !! "y_open_loop"
   = Some [0; 3; -3; 9; -15; 33; -63]%float).
Proof.
  split; [|split].
  - intros T N L Ts tau Kp Ki Kd n_samples ns _ Htau _ Hn.
    eexists. split; [by apply simulate_valid|].
    intros x j Hj. rewrite item_to_ns. apply lookup_lt_is_Some_2.
    rewrite length_arrays_at, length_fresh_arrays. lia.
  - intros Kp Ki Kd n_samples ns k Hk Hkn.
    destruct (open_loop_entry 3 1 Kp Ki Kd n_samples ns k)
      as (ns' & v & Hrun & Hv & Hcf); [lra | lia |].
    destruct (open_loop_entry 3 1 Kp Ki Kd n_samples ns (k + 1))
      as (ns'' & w & Hrun' & Hw & Hcf'); [lra | lia |].
    rewrite Hrun in Hrun'. injection Hrun' as <-.
    exists ns', v, w. split; [done|]. split; [done|]. split; [done|].
    assert (E : 1 - 3 / 1 == -2) by reflexivity.
    rewrite E in Hcf, Hcf'. rewrite Nat.add_1_r, Qpower_succ in Hcf'.
    destruct (neg2_power k Hk) as [Hp | Hp];
      set (p := (-2) ^ Z.of_nat k) in *.
    + assert (Hv0 : v <= -1) by lra. assert (Hw0 : 5 <= w) by lra.
      rewrite (Qabs_neg v), (Qabs_pos w) by lra.
      split; [done|]. split; [nra|]. split; lra.
    + assert (Hv0 : 3 <= v) by lra. assert (Hw0 : w <= -3) by lra.
      rewrite (Qabs_pos v), (Qabs_neg w) by lra.
      split; [done|]. split; [nra|]. split; lra.
  - by_computation.
Qed.

Lemma unstable_plant_runs_witness :
  (∃ ns' : Namespace float,
     simulate 3%float 1%float 5%float 5%float 0x1.999999999999ap-4%float
       2000 ∅ = (Done (), ns') ∧
     ∀ x (j : nat), (Z.of_nat j <= 2000)%Z → is_Some (item ns' (var x) j)) ∧
  (∃ (ns' : Namespace Q) (v w : Q),
     simulate 3 1 5 5 (1 # 10) 6 ∅ = (Done (), ns') ∧
     item ns' "y_open_loop" 2 = Some v ∧
     item ns' "y_open_loop" (2 + 1) = Some w ∧
     v == 1 - (-2) ^ Z.of_nat 2 ∧
     v * w < 0 ∧
     Qabs v <= Qabs w ∧
     2 * Qabs v - 3 <= Qabs w).
Proof.
  split.
  - apply (proj1 unstable_plant_runs float _ _); [reflexivity.. | lia].
  - apply (proj1 (proj2 unstable_plant_runs)); lia.
Defined.

End Exact.

(** ** The loop cell on the arrays of the kernel *)

Section LoopCell.
Context {T : Type} `{Num T}.
Implicit Types (A : Arrays T) (ns : Namespace T) (a : list T).

(** A namespace in which the eight names are bound. *)
Lemma to_ns_id A ns : (∀ x, ns !! var x = Some (A x)) → to_ns A ns = ns.
Proof.
  intros Hb. unfold to_ns.
  rewrite (insert_id ns (var N_m)) by apply Hb.
  rewrite (insert_id ns (var N_m_cont)) by apply Hb.
  rewrite (insert_id ns (var N_y_open_loop)) by apply Hb.
  rewrite (insert_id ns (var N_y)) by apply Hb.
  rewrite (insert_id ns (var N_y_sp)) by apply Hb.
  rewrite (insert_id ns (var N_e)) by apply Hb.
  rewrite (insert_id ns (var N_int_e)) by apply Hb.
  by rewrite (insert_id ns (var N_diff_e)) by apply Hb.
Qed.

Lemma for_range_app (body : nat → Py unit) lo k1 k2 ns :
  for_range body lo (k1 + k2) ns
  = match for_range body lo k1 ns with
    | (Done _, ns') => for_range body (lo + k1) k2 ns'
    | (Raised err, ns') => (Raised err, ns')
    end.
Proof.
  revert lo ns. induction k1 as [|k1 IH]; intros lo ns.
  - cbn. by rewrite Nat.add_0_r.
  - cbn [Nat.add for_range]. rewrite !bind_run.
    destruct (body lo ns) as [[[] | err] ns1]; [|done].
    rewrite IH. by rewrite Nat.add_succ_r.
Qed.

Lemma load_out_of_range x i A ns :
  A x !! i = None → load (var x) i (to_ns A ns) = (Raised IndexError, to_ns A ns).
Proof. intros E. unfold load. by rewrite to_ns_lookup, E. Qed.

Lemma store_out_of_range x i v A ns :
  (length (A x) ≤ i)%nat →
  store (var x) i v (to_ns A ns) = (Raised IndexError, to_ns A ns).
Proof.
  intros Hi. unfold store. rewrite to_ns_lookup.
  by rewrite decide_False by lia.
Qed.

(** The pass of the loop that leaves the arrays: nothing is written. *)
Lemma loop_body_past_the_end Ts tau Kp Ki Kd A ns (i : nat) :
  is_zero tau = false →
  (∀ x, length (A x) = S i) ∨ ((∀ x, length (A x) = O) ∧ i = O) →
  loop_body Ts tau Kp Ki Kd i (to_ns A ns) = (Raised IndexError, to_ns A ns).
Proof.
  intros Htau Hlen. unfold loop_body. rewrite Nat.add_1_r.
  rewrite bind_run, py_div_ok by done. rewrite bind_run.
  destruct Hlen as [Hl | [Hl ->]].
  - rewrite (load_to_ns N_y_open_loop i (at_index (A N_y_open_loop) i))
      by (apply lookup_at_index; rewrite Hl; lia).
    rewrite bind_run, py_div_ok by done. rewrite bind_run.
    rewrite (load_to_ns N_m i (at_index (A N_m) i))
      by (apply lookup_at_index; rewrite Hl; lia).
    rewrite bind_run.
    by rewrite (store_out_of_range N_y_open_loop) by (rewrite Hl; lia).
  - rewrite (load_out_of_range N_y_open_loop); [done|].
    apply lookup_ge_None_2. rewrite Hl. lia.
Qed.

(** X2: the loop run for more steps than the arrays were made for.  After
    the cell "Step response" for [n0] samples, the loop for [n_samples > n0]
    steps (and at least one) computes the [n0] steps that fit, exactly as
    a run for [n0] samples does, and then raises [IndexError]. *)
Theorem loop_past_the_arrays Ts tau Kp Ki Kd (n0 n_samples : Z) ns :
  is_zero tau = false → -1 ≤ n0 → n0 < n_samples → 1 ≤ n_samples →
  (step_response n0;; simulation_loop Ts tau Kp Ki Kd n_samples) ns
  = (Raised IndexError, snd (simulate Ts tau Kp Ki Kd n0 ns)).
Proof.
  intros Htau Hn0 Hlt Hn.
  rewrite (simulate_done Ts tau Kp Ki Kd n0 ns) by (lia || by left).
  cbn [snd]. rewrite bind_run, step_response_ok by lia.
  unfold simulation_loop.
  replace (Z.to_nat n_samples)
    with (Z.to_nat n0 + S (Z.to_nat n_samples - S (Z.to_nat n0)))%nat by lia.
  rewrite for_range_app.
  rewrite <- (to_ns_ext (arrays_at Ts tau Kp Ki Kd 0 (fresh_arrays n0)))
    by apply arrays_at_0.
  assert (Hfirst : for_range (loop_body Ts tau Kp Ki Kd) 0 (Z.to_nat n0)
             (to_ns (arrays_at Ts tau Kp Ki Kd 0 (fresh_arrays n0)) ns)
           = (Done (), to_ns (arrays_at Ts tau Kp Ki Kd (Z.to_nat n0)
                                (fresh_arrays n0)) ns)).
  { destruct (decide (n0 = -1)) as [-> | Hne]; [reflexivity|].
    rewrite for_range_loop_body; [done | done |].
    intros x. rewrite length_fresh_arrays. lia. }
  rewrite Hfirst. cbn [for_range Nat.add]. rewrite bind_run.
  rewrite loop_body_past_the_end; [done | done |].
  destruct (decide (n0 = -1)) as [-> | Hne]; [right; split; [|done] | left];
    intros x; rewrite length_arrays_at, length_fresh_arrays; lia.
Qed.

Lemma written_written_max k1 k2 (f : nat → T) a :
  written k2 f (written k1 f a) = written (Nat.max k1 k2) f a.
Proof.
  apply list_eq. intros j. unfold written. rewrite !list_lookup_imap.
  destruct (a !! j); [|done]. cbn. repeat case_decide; (done || lia).
Qed.

Lemma arrays_at_arrays_at Ts tau Kp Ki Kd k1 k2 A x :
  arrays_at Ts tau Kp Ki Kd k2 (arrays_at Ts tau Kp Ki Kd k1 A) x
  = arrays_at Ts tau Kp Ki Kd (Nat.max k1 k2) A x.
Proof.
  destruct x; cbn [arrays_at]; try done;
    fold (arrays_at Ts tau Kp Ki Kd k1 A);
    rewrite traj_of_arrays_at; apply written_written_max.
Qed.

(** X4: the loop cell run twice.  On arrays that are long enough, running
    the loop for [n2] steps after a run for [n1] steps leaves what one run
    for the larger of the two leaves: a second run of the same or a
    smaller length changes nothing, a longer one extends the first. *)
Theorem loop_after_loop Ts tau Kp Ki Kd (n1 n2 : Z) A ns :
  is_zero tau = false →
  (∀ x, ns !! var x = Some (A x)) →
  (∀ x, (Z.to_nat (Z.max n1 n2) < length (A x))%nat) →
  simulation_loop Ts tau Kp Ki Kd n2
    (snd (simulation_loop Ts tau Kp Ki Kd n1 ns))
  = simulation_loop Ts tau Kp Ki Kd (Z.max n1 n2) ns.
Proof.
  intros Htau Hb Hlen. rewrite <- (to_ns_id A ns Hb).
  rewrite (simulation_loop_done _ _ _ _ _ n1), (simulation_loop_done _ _ _ _ _ (Z.max n1 n2));
    [| done | done | done | intros x; specialize (Hlen x); lia ].
  cbn [snd]. rewrite simulation_loop_done;
    [| done | intros x; rewrite length_arrays_at; specialize (Hlen x); lia ].
  f_equal. apply to_ns_ext. intros x. rewrite arrays_at_arrays_at.
  f_equal. lia.
Qed.

End LoopCell.

(** Arrays for one sample, and a loop of three steps. *)
Lemma loop_past_the_arrays_witness :
  (step_response (T:=float) 1;; simulation_loop 1%float 2%float 5%float 5%float 0x1.999999999999ap-4%float 3) ∅
  = (Raised IndexError, snd (simulate 1%float 2%float 5%float 5%float 0x1.999999999999ap-4%float 1 ∅)).
Proof. apply loop_past_the_arrays; [reflexivity | lia | lia | lia]. Defined.

(** One step, then three. *)
Lemma loop_after_loop_witness :
  let ns : Namespace float := to_ns (fresh_arrays 3) ∅ in
  simulation_loop 1%float 2%float 5%float 5%float
    0x1.999999999999ap-4%float 3
    (snd (simulation_loop 1%float 2%float 5%float 5%float
            0x1.999999999999ap-4%float 1 ns))
  = simulation_loop 1%float 2%float 5%float 5%float 0x1.999999999999ap-4%float (Z.max 1 3) ns.
Proof.
  apply (loop_after_loop _ _ _ _ _ _ _ (fresh_arrays 3));
    [reflexivity | intros []; reflexivity | intros []; vm_compute; lia].
Defined.

(** ** The cells on the whole namespace: what a run leaves *)

Section KernelRun.
Context {T : Type} `{Num T}.
Implicit Types (A : Arrays T) (k : Kernel T) (a : list T) (s : string).

Lemma cell_bind_run {X Y} (c : Cell X) (f : X → Cell Y) k :
  (c ≫= f) k = match c k with
               | (Done x, k') => f x k'
               | (Raised err, k') => (Raised err, k')
               end.
Proof. reflexivity. Qed.

Lemma cell_ret_bind {X Y} (x : X) (f : X → Cell Y) k : (mret x ≫= f) k = f x k.
Proof. reflexivity. Qed.

Lemma cell_ret_run {X} (x : X) k : (mret x : Cell X) k = (Done x, k).
Proof. reflexivity. Qed.

Ltac cell_run :=
  repeat first [ rewrite cell_ret_bind | rewrite cell_ret_run
               | rewrite cell_bind_run ].

Lemma array_name_cases s : (∃ y, s = var y) ∨ (∀ y, s ≠ var y).
Proof.
  destruct (decide (s = "m")) as [-> | ?]; [left; by exists N_m|].
  destruct (decide (s = "m_cont")) as [-> | ?]; [left; by exists N_m_cont|].
  destruct (decide (s = "y_open_loop")) as [-> | ?];
    [left; by exists N_y_open_loop|].
  destruct (decide (s = "y")) as [-> | ?]; [left; by exists N_y|].
  destruct (decide (s = "y_sp")) as [-> | ?]; [left; by exists N_y_sp|].
  destruct (decide (s = "e")) as [-> | ?]; [left; by exists N_e|].
  destruct (decide (s = "int_e")) as [-> | ?]; [left; by exists N_int_e|].
  destruct (decide (s = "diff_e")) as [-> | ?]; [left; by exists N_diff_e|].
  right. by intros [].
Qed.

Lemma to_kernel_lookup A k x : to_kernel A k !! var x = Some (VArr (A x)).
Proof.
  destruct x; unfold to_kernel; cbn [var];
    rewrite ?(lookup_insert_ne (M:=gmap string)) by done; apply lookup_insert_eq.
Qed.

Lemma to_kernel_lookup_other A k s :
  (∀ x, s ≠ var x) → to_kernel A k !! s = k !! s.
Proof.
  intros Hs. unfold to_kernel.
  rewrite !lookup_insert_ne by (intros E; by eapply Hs). done.
Qed.

Lemma to_kernel_ext A A' k : (∀ x, A x = A' x) → to_kernel A k = to_kernel A' k.
Proof. intros E. unfold to_kernel. by rewrite !E. Qed.

Lemma to_kernel_insert A k x a :
  <[var x := VArr a]> (to_kernel A k) = to_kernel (<[x := a]> A) k.
Proof.
  apply map_eq. intros s.
  destruct (decide (s = var x)) as [-> | Hne].
  - by rewrite lookup_insert_eq, to_kernel_lookup, fn_lookup_insert.
  - rewrite lookup_insert_ne by done.
    destruct (array_name_cases s) as [[y ->] | Hno].
    + rewrite !to_kernel_lookup. rewrite fn_lookup_insert_ne; [done|].
      by intros ->.
    + by rewrite !to_kernel_lookup_other by done.
Qed.

Lemma to_kernel_insert_other A k s (v : value T) :
  (∀ x, s ≠ var x) → <[s := v]> (to_kernel A k) = to_kernel A (<[s := v]> k).
Proof.
  intros Hs. apply map_eq. intros s'.
  destruct (array_name_cases s') as [[y ->] | Hno].
  - rewrite lookup_insert_ne by (intros E; by eapply Hs).
    by rewrite !to_kernel_lookup.
  - rewrite to_kernel_lookup_other by done.
    destruct (decide (s' = s)) as [-> | Hne].
    + by rewrite !lookup_insert_eq.
    + rewrite !lookup_insert_ne by done. by apply to_kernel_lookup_other.
Qed.

Lemma to_kernel_union A (m k : Kernel T) :
  to_kernel A (m ∪ k) = to_kernel A m ∪ k.
Proof. unfold to_kernel. by rewrite !insert_union_l. Qed.

(** A kernel in which the eight names are bound to arrays. *)
Lemma to_kernel_id A k :
  (∀ x, k !! var x = Some (VArr (A x))) → to_kernel A k = k.
Proof.
  intros Hb. apply map_eq. intros s.
  destruct (array_name_cases s) as [[y ->] | Hno].
  - by rewrite to_kernel_lookup, Hb.
  - by apply to_kernel_lookup_other.
Qed.

(** *** Reading and writing in a kernel with the arrays [A] *)

Lemma read_bound s (v : value T) k :
  k !! s = Some v → read s k = (Done v, k).
Proof. intros E. unfold read. by rewrite E. Qed.

Lemma read_other s (v : value T) A k :
  (∀ x, s ≠ var x) → k !! s = Some v →
  read s (to_kernel A k) = (Done v, to_kernel A k).
Proof. intros Hs E. apply read_bound. by rewrite to_kernel_lookup_other. Qed.

Lemma get_item_named x s i w A k :
  s = var x → A x !! i = Some w →
  get_item s i (to_kernel A k) = (Done w, to_kernel A k).
Proof.
  intros -> E. unfold get_item.
  rewrite cell_bind_run, (read_bound _ _ _ (to_kernel_lookup A k x)).
  cbn [as_array]. rewrite cell_bind_run. cbn. by rewrite E.
Qed.

Lemma set_item_named x s i w A k :
  s = var x → (i < length (A x))%nat →
  set_item s i w (to_kernel A k)
  = (Done (), to_kernel (<[x := <[i := w]> (A x)]> A) k).
Proof.
  intros -> Hi. unfold set_item.
  rewrite cell_bind_run, (read_bound _ _ _ (to_kernel_lookup A k x)).
  cbn [as_array]. rewrite cell_bind_run. cbn [mret Cell_ret cell_ret].
  rewrite decide_True by done. unfold rebind. by rewrite to_kernel_insert.
Qed.

Lemma quotient_bound x y (a b : T) k :
  k !! x = Some (VNum a) → k !! y = Some (VNum b) →
  quotient x y k
  = if is_zero b then (Raised ZeroDivisionError, k) else (Done (div a b), k).
Proof.
  intros Ex Ey. unfold quotient.
  rewrite cell_bind_run, (read_bound x _ k Ex).
  rewrite cell_bind_run, (read_bound y _ k Ey).
  cbn [as_number]. rewrite !cell_ret_bind.
  unfold true_divide. by destruct (is_zero b).
Qed.

Lemma quotient_named x y (a b : T) A k :
  (∀ z, x ≠ var z) → (∀ z, y ≠ var z) →
  k !! x = Some (VNum a) → k !! y = Some (VNum b) →
  quotient x y (to_kernel A k)
  = if is_zero b then (Raised ZeroDivisionError, to_kernel A k)
    else (Done (div a b), to_kernel A k).
Proof.
  intros Hx Hy Ex Ey. apply quotient_bound; by rewrite to_kernel_lookup_other.
Qed.

Lemma times_item_named x y s i (n w : T) A k :
  (∀ z, x ≠ var z) → k !! x = Some (VNum n) →
  s = var y → A y !! i = Some w →
  times_item x s i (to_kernel A k) = (Done (mul n w), to_kernel A k).
Proof.
  intros Hx Ex -> E. unfold times_item.
  rewrite cell_bind_run, (read_other x _ A k Hx Ex).
  rewrite cell_bind_run, (get_item_named y _ i w) by done.
  reflexivity.
Qed.

Lemma loop_scalars_i Ts tau Kp Ki Kd k (v : value T) :
  loop_scalars Ts tau Kp Ki Kd k →
  loop_scalars Ts tau Kp Ki Kd (<["i" := v]> k).
Proof.
  intros (H1 & H2 & H3 & H4 & H5). unfold loop_scalars.
  by rewrite !lookup_insert_ne by done.
Qed.

Ltac array_name_of s :=
  lazymatch s with
  | "m" => constr:(N_m)
  | "m_cont" => constr:(N_m_cont)
  | "y_open_loop" => constr:(N_y_open_loop)
  | "y" => constr:(N_y)
  | "y_sp" => constr:(N_y_sp)
  | "e" => constr:(N_e)
  | "int_e" => constr:(N_int_e)
  | "diff_e" => constr:(N_diff_e)
  end.

Ltac entry_side Hlen :=
  repeat first [ rewrite fn_lookup_insert | rewrite fn_lookup_insert_ne by done ];
  cbn [arrays_at];
  rewrite ?length_insert, ?length_written;
  rewrite ?list_lookup_insert_ne by lia;
  first
    [ apply Hlen
    | apply list_lookup_insert_eq; rewrite ?length_insert, ?length_written;
      apply Hlen
    | apply lookup_written_le;
      [lia | first [apply Hlen | eapply Nat.lt_trans; [|apply Hlen]; lia]]
    | apply lookup_at_index;
      first [apply Hlen | eapply Nat.lt_trans; [|apply Hlen]; lia]
    | eapply Nat.lt_trans; [|apply Hlen]; lia ].

Ltac not_an_array := by intros [].

Ltac cell_step Hlen Htau :=
  try rewrite cell_bind_run;
  lazymatch goal with
  | |- context [quotient ?x ?y (to_kernel ?A ?k)] =>
      erewrite (quotient_named x y _ _ A k);
      [ rewrite Htau | not_an_array | not_an_array | eassumption | eassumption ]
  | |- context [times_item ?x ?s ?i (to_kernel ?A ?k)] =>
      let y := array_name_of s in
      erewrite (times_item_named x y s i _ _ A k);
      [ | not_an_array | eassumption | reflexivity | entry_side Hlen ]
  | |- context [get_item ?s ?i (to_kernel ?A ?k)] =>
      let x := array_name_of s in
      erewrite (get_item_named x s i _ A k); [ | reflexivity | entry_side Hlen ]
  | |- context [set_item ?s ?i ?v (to_kernel ?A ?k)] =>
      let x := array_name_of s in
      rewrite (set_item_named x s i v A k); [ | reflexivity | entry_side Hlen ]
  | |- context [read ?s (to_kernel ?A ?k)] =>
      erewrite (read_other s _ A k); [ | not_an_array | eassumption ]
  | |- context [as_number (VNum ?x) ?k] =>
      change (as_number (VNum x) k) with (Done x, k); cbv beta iota
  end.

Lemma loop_pass_step Ts tau Kp Ki Kd A k i :
  loop_scalars Ts tau Kp Ki Kd k →
  is_zero tau = false →
  (∀ x, (S i < length (A x))%nat) →
  loop_pass i (to_kernel (arrays_at Ts tau Kp Ki Kd i A) k)
  = (Done (), to_kernel (arrays_at Ts tau Kp Ki Kd (S i) A) k).
Proof.
  intros (HTs & Htau' & HKp & HKi & HKd) Htau Hlen.
  unfold loop_pass. rewrite !Nat.add_1_r.
  repeat cell_step Hlen Htau.
  f_equal. apply to_kernel_ext. intros x.
  destruct x;
    repeat first [ rewrite fn_lookup_insert | rewrite fn_lookup_insert_ne by done ];
    cbn [arrays_at]; try reflexivity;
    rewrite <- insert_written; reflexivity.
Qed.


(** *** The whole loop *)

Lemma rebind_other A k s (v : value T) :
  (∀ x, s ≠ var x) →
  rebind s v (to_kernel A k) = (Done (), to_kernel A (<[s := v]> k)).
Proof. intros Hs. unfold rebind. by rewrite to_kernel_insert_other. Qed.

Lemma for_in_range_loop Ts tau Kp Ki Kd A k n lo :
  loop_scalars Ts tau Kp Ki Kd k →
  is_zero tau = false →
  (∀ x, (lo + n < length (A x))%nat) →
  for_in_range loop_pass lo n (to_kernel (arrays_at Ts tau Kp Ki Kd lo A) k)
  = (Done (), to_kernel (arrays_at Ts tau Kp Ki Kd (lo + n) A)
                (loop_variable lo n k)).
Proof.
  intros Hsc Htau. revert lo k Hsc. induction n as [|n IH]; intros lo k Hsc Hlen.
  - by rewrite Nat.add_0_r.
  - cbn [for_in_range]. rewrite cell_bind_run, rebind_other by (by intros []).
    rewrite cell_bind_run.
    rewrite (loop_pass_step Ts tau Kp Ki Kd);
      [ | by apply loop_scalars_i | done
        | intros x; specialize (Hlen x); lia ].
    rewrite IH;
      [ | by apply loop_scalars_i
        | intros x; specialize (Hlen x); lia ].
    rewrite Nat.add_succ_r. f_equal. f_equal.
    destruct n as [|n]; cbn [loop_variable].
    + by rewrite Nat.add_0_r.
    + rewrite insert_insert_eq. by rewrite Nat.add_succ_r.
Qed.

(** The loop cell up to its first pass. *)
Lemma cell_loop_start k (vn : value T) :
  k !! "n_samples" = Some vn →
  cell_loop k
  = if bool_decide (is_Some (k !! "range")) then (Raised TypeError, k)
    else match vn with
         | VInt n => for_in_range loop_pass 0 (Z.to_nat n) k
         | _ => (Raised TypeError, k)
         end.
Proof.
  intros En. unfold cell_loop. rewrite cell_bind_run. unfold hidden.
  rewrite cell_bind_run, (read_bound _ _ _ En). rewrite cell_bind_run.
  destruct (bool_decide (is_Some (k !! "range"))); [done|].
  unfold call_builtin. change ((mret () : Cell unit) k) with (Done (), k). cbv beta iota.
  rewrite cell_bind_run. by destruct vn.
Qed.

(** The loop cell on arrays that are long enough. *)
Lemma cell_loop_done Ts tau Kp Ki Kd n A k :
  k !! "range" = None → k !! "n_samples" = Some (VInt n) →
  loop_scalars Ts tau Kp Ki Kd k →
  is_zero tau = false →
  (∀ x, (Z.to_nat n < length (A x))%nat) →
  cell_loop (to_kernel A k)
  = (Done (), to_kernel (arrays_at Ts tau Kp Ki Kd (Z.to_nat n) A)
                (loop_variable 0 (Z.to_nat n) k)).
Proof.
  intros Hr Hn Hsc Htau Hlen.
  rewrite (cell_loop_start _ (VInt n))
    by (by rewrite to_kernel_lookup_other by (by intros [])).
  rewrite to_kernel_lookup_other by (by intros []). rewrite Hr.
  rewrite bool_decide_eq_false_2 by (by intros [? [=]]).
  rewrite <- (to_kernel_ext (arrays_at Ts tau Kp Ki Kd 0 A)) by apply arrays_at_0.
  by rewrite (for_in_range_loop Ts tau Kp Ki Kd).
Qed.

(** With [tau == 0] the first pass stops at its first division. *)
Lemma cell_loop_zero_tau Ts tau n k :
  k !! "range" = None → k !! "n_samples" = Some (VInt n) → 1 ≤ n →
  k !! "Ts" = Some (VNum Ts) → k !! "tau" = Some (VNum tau) →
  is_zero tau = true →
  cell_loop k = (Raised ZeroDivisionError, <["i" := VInt 0]> k).
Proof.
  intros Hr Hn Hpos HTs Htau Hz. rewrite (cell_loop_start _ (VInt n)) by done.
  rewrite Hr, bool_decide_eq_false_2 by (by intros [? [=]]).
  destruct (Z.to_nat n) as [|m] eqn:E; [lia|].
  cbn [for_in_range]. rewrite cell_bind_run. unfold rebind at 1.
  rewrite cell_bind_run. unfold loop_pass. rewrite cell_bind_run.
  rewrite (quotient_bound "Ts" "tau" Ts tau)
    by (by rewrite lookup_insert_ne by done).
  by rewrite Hz.
Qed.

(** *** The cells before the loop *)

Ltac lookup_kernel :=
  unfold with_settings, with_parameters;
  repeat first [ rewrite lookup_insert_eq
               | rewrite lookup_insert_ne by done
               | rewrite to_kernel_lookup_other by (by intros []) ];
  try done.

Lemma function_of_bound m x k :
  k !! x = Some (VModule m) → function_of m x k = (Done (), k).
Proof.
  intros E. unfold function_of. rewrite cell_bind_run, (read_bound _ _ _ E).
  by rewrite decide_True.
Qed.

Lemma cell_initialization_cases (c : Config T) k :
  cell_initialization c k
  = let k1 := <["Ti" := VNum (Ti c)]> (<["Tf" := VNum (Tf c)]>
                (<["Fs" := VNum (Fs c)]> k)) in
    if is_zero (Fs c) then (Raised ZeroDivisionError, k1)
    else (Done (), <["Ts" := VNum (div (of_int 1) (Fs c))]> k1).
Proof.
  unfold cell_initialization, rebind. rewrite !cell_bind_run.
  erewrite read_bound by lookup_kernel.
  cbn [as_number]. rewrite cell_ret_bind, cell_bind_run. unfold true_divide.
  by destruct (is_zero (Fs c)).
Qed.

Lemma cell_samples_cases (Ti Tf Ts : T) k :
  k !! "math" = Some (VModule "math") → k !! "np" = Some (VModule "numpy") →
  k !! "Ti" = Some (VNum Ti) → k !! "Tf" = Some (VNum Tf) →
  k !! "Ts" = Some (VNum Ts) →
  cell_samples k
  = if is_zero Ts then (Raised ZeroDivisionError, k)
    else match math_floor (div Tf Ts) with
         | Raised err => (Raised err, k)
         | Done n =>
             let k1 := <["n_samples" := VInt n]> k in
             match safe_ceil (div (sub Tf Ti) Ts) with
             | Raised err => (Raised err, k1)
             | Done len =>
                 (Done (), <["t" := VArr (arange_values Ti Ts len)]> k1)
             end
         end.
Proof.
  intros Hmath Hnp HTi HTf HTs. unfold cell_samples.
  rewrite cell_bind_run, function_of_bound by done.
  rewrite cell_bind_run, (quotient_bound "Tf" "Ts" Tf Ts) by done.
  destruct (is_zero Ts) eqn:Hz; [done|].
  rewrite cell_bind_run. unfold cell_lift at 1.
  destruct (math_floor _) as [n | err]; [|done].
  rewrite cell_bind_run. unfold rebind at 1. cbn zeta.
  rewrite cell_bind_run, function_of_bound by lookup_kernel.
  rewrite cell_bind_run, (read_bound "Ti" (VNum Ti)) by lookup_kernel.
  rewrite cell_bind_run, (read_bound "Tf" (VNum Tf)) by lookup_kernel.
  rewrite cell_bind_run, (read_bound "Ts" (VNum Ts)) by lookup_kernel.
  cbn [as_number]. cell_run. unfold true_divide. rewrite Hz. cell_run.
  unfold cell_lift. by destruct (safe_ceil _).
Qed.

Lemma allocate_cases (v : T) n k :
  k !! "np" = Some (VModule "numpy") → k !! "n_samples" = Some (VInt n) →
  allocate v k
  = if n + 1 <? 0 then (Raised ValueError, k)
    else (Done (replicate (Z.to_nat (n + 1)) v), k).
Proof.
  intros Hnp Hn. unfold allocate.
  rewrite cell_bind_run, function_of_bound by done.
  rewrite cell_bind_run, (read_bound _ _ _ Hn).
  cbn [as_integer]. rewrite cell_ret_bind. unfold full.
  by destruct (n + 1 <? 0).
Qed.

Lemma cell_step_response_cases n k :
  k !! "np" = Some (VModule "numpy") → k !! "n_samples" = Some (VInt n) →
  cell_step_response k
  = if n + 1 <? 0 then (Raised ValueError, k)
    else (Done (), to_kernel (fresh_arrays n) k).
Proof.
  intros Hnp Hn. unfold cell_step_response.
  rewrite cell_bind_run, (allocate_cases _ n) by done.
  destruct (n + 1 <? 0) eqn:Hneg; [done|].
  rewrite cell_bind_run. unfold rebind at 1.
  do 6 (rewrite cell_bind_run, (allocate_cases _ n), Hneg by lookup_kernel;
        rewrite cell_bind_run; unfold rebind at 1).
  rewrite cell_bind_run, (allocate_cases _ n), Hneg by lookup_kernel.
  reflexivity.
Qed.


(** *** Every case of a run of the cells *)

Lemma run_cells_cases (c : Config T) k :
  run_cells c k
  = let k1 := with_settings c k in
    if is_zero (Fs c) then (Raised ZeroDivisionError, k1)
    else
      let Ts := div (of_int 1) (Fs c) in
      let k2 := <["Ts" := VNum Ts]> k1 in
      if is_zero Ts then (Raised ZeroDivisionError, k2)
      else match math_floor (div (Tf c) Ts) with
           | Raised err => (Raised err, k2)
           | Done n =>
               let k3 := <["n_samples" := VInt n]> k2 in
               match safe_ceil (div (sub (Tf c) (Ti c)) Ts) with
               | Raised err => (Raised err, k3)
               | Done len =>
                   let k4 :=
                     with_parameters c
                       (<["t" := VArr (arange_values (Ti c) Ts len)]> k3) in
                   if n + 1 <? 0 then (Raised ValueError, k4)
                   else if bool_decide (is_Some (k !! "range"))
                   then (Raised TypeError, to_kernel (fresh_arrays n) k4)
                   else if (1 <=? n) && is_zero (tau c)
                   then (Raised ZeroDivisionError,
                         <["i" := VInt 0]> (to_kernel (fresh_arrays n) k4))
                   else (Done (),
                         to_kernel
                           (arrays_at Ts (tau c) (Kp c) (Ki c) (Kd c)
                              (Z.to_nat n) (fresh_arrays n))
                           (loop_variable 0 (Z.to_nat n) k4))
               end
           end.
Proof.
  unfold run_cells. rewrite cell_bind_run.
  change (cell_imports k)
    with (Done (), <["plt" := VModule "matplotlib.pyplot"]>
                     (<["np" := VModule "numpy"]>
                        (<["math" := VModule "math"]> k))).
  cbv beta iota. rewrite cell_bind_run, cell_initialization_cases. cbv zeta.
  fold (with_settings c k).
  destruct (is_zero (Fs c)); [done|].
  set (Ts := div (of_int 1) (Fs c)).
  rewrite cell_bind_run.
  rewrite (cell_samples_cases (Ti c) (Tf c) Ts) by lookup_kernel.
  destruct (is_zero Ts); [done|].
  destruct (math_floor _) as [n | err]; [|done]. cbv zeta.
  destruct (safe_ceil _) as [len | err]; [|done].
  rewrite cell_bind_run.
  set (k3 := <["t" := _]> _).
  change (cell_parameters c k3) with (Done (), with_parameters c k3).
  cbv beta iota. rewrite cell_bind_run.
  rewrite (cell_step_response_cases n) by (subst k3; lookup_kernel).
  destruct (Z.ltb_spec (n + 1) 0) as [Hneg | Hnn]; [done|].
  set (k4 := with_parameters c k3).
  assert (Hrange : to_kernel (fresh_arrays n) k4 !! "range" = k !! "range")
    by (subst k4 k3; lookup_kernel).
  assert (Hn : to_kernel (fresh_arrays n) k4 !! "n_samples" = Some (VInt n))
    by (subst k4 k3; lookup_kernel).
  destruct (k !! "range") as [v|] eqn:Hr.
  { rewrite (cell_loop_start _ (VInt n)) by done. rewrite Hrange.
    by rewrite !bool_decide_eq_true_2 by done. }
  rewrite (bool_decide_eq_false_2 (is_Some None)) by (by intros [? [=]]).
  destruct (Z.leb_spec 1 n) as [Hpos | Hsmall]; cbn [andb].
  - destruct (is_zero (tau c)) eqn:Htau.
    + apply (cell_loop_zero_tau Ts (tau c) n);
        [by rewrite Hrange | done | done | | | done];
        subst k4 k3; lookup_kernel.
    + apply (cell_loop_done Ts (tau c) (Kp c) (Ki c) (Kd c) n);
        [ subst k4 k3; lookup_kernel | subst k4 k3; lookup_kernel
        | subst k4 k3; repeat split; lookup_kernel | done | ].
      intros x. rewrite length_fresh_arrays. lia.
  - rewrite (cell_loop_start _ (VInt n)) by done. rewrite Hrange.
    rewrite (bool_decide_eq_false_2 (is_Some None)) by (by intros [? [=]]).
    replace (Z.to_nat n) with O by lia. cbn [for_in_range loop_variable].
    rewrite cell_ret_run. f_equal. apply to_kernel_ext. intros x.
    symmetry. apply arrays_at_0.
Qed.

(** The bindings of a run lie over the kernel it started from. *)
Lemma with_settings_union (c : Config T) (m k : Kernel T) :
  with_settings c (m ∪ k) = with_settings c m ∪ k.
Proof. unfold with_settings. by rewrite !insert_union_l. Qed.

Lemma with_parameters_union (c : Config T) (m k : Kernel T) :
  with_parameters c (m ∪ k) = with_parameters c m ∪ k.
Proof. unfold with_parameters. by rewrite !insert_union_l. Qed.

Lemma loop_variable_union lo n (m k : Kernel T) :
  loop_variable lo n (m ∪ k) = loop_variable lo n m ∪ k.
Proof. destruct n; [done|]. cbn. by rewrite insert_union_l. Qed.

Lemma run_cells_union (c : Config T) (m k : Kernel T) :
  m !! "range" = None → k !! "range" = None →
  run_cells c (m ∪ k) = (fst (run_cells c m), snd (run_cells c m) ∪ k).
Proof.
  intros Hm Hk. rewrite !run_cells_cases. cbv zeta.
  assert (Hmk : (m ∪ k) !! "range" = None) by (by apply lookup_union_None_2).
  rewrite Hmk, Hm.
  rewrite (bool_decide_eq_false_2 (is_Some None)) by (by intros [? [=]]).
  destruct (is_zero (Fs c)); cbn [fst snd];
    [by rewrite with_settings_union|].
  destruct (is_zero _); cbn [fst snd];
    [by rewrite with_settings_union, insert_union_l|].
  destruct (math_floor _) as [n | err]; cbn [fst snd];
    [|by rewrite with_settings_union, insert_union_l].
  destruct (safe_ceil _) as [len | err]; cbn [fst snd];
    [|by rewrite with_settings_union, !insert_union_l].
  destruct (n + 1 <? 0); cbn [fst snd];
    [by rewrite with_settings_union, !insert_union_l, with_parameters_union|].
  destruct (_ && _); cbn [fst snd];
    by rewrite with_settings_union, !insert_union_l, with_parameters_union,
         ?loop_variable_union, to_kernel_union, ?insert_union_l.
Qed.

Lemma not_cell_name s :
  s ∉ cell_names →
  (∀ x, s ≠ var x) ∧
  s ≠ "math" ∧ s ≠ "np" ∧ s ≠ "plt" ∧ s ≠ "Fs" ∧ s ≠ "Tf" ∧ s ≠ "Ti" ∧
  s ≠ "Ts" ∧ s ≠ "n_samples" ∧ s ≠ "t" ∧ s ≠ "tau" ∧ s ≠ "Kp" ∧ s ≠ "Ki" ∧
  s ≠ "Kd" ∧ s ≠ "i".
Proof.
  unfold cell_names. rewrite !not_elem_of_cons. intros Hs.
  split; [intros []; cbn [var]; tauto | tauto].
Qed.

(** A run binds no other names than [cell_names]. *)
Lemma run_cells_frame (c : Config T) k s :
  s ∉ cell_names → snd (run_cells c k) !! s = k !! s.
Proof.
  intros Hs. apply not_cell_name in Hs as (Harr & Hs).
  assert (Hset : ∀ k', with_settings c k' !! s = k' !! s)
    by (intros k'; unfold with_settings;
        rewrite !lookup_insert_ne by (intros <-; tauto); done).
  assert (Hpar : ∀ k', with_parameters c k' !! s = k' !! s)
    by (intros k'; unfold with_parameters;
        rewrite !lookup_insert_ne by (intros <-; tauto); done).
  assert (Hvar : ∀ lo n k', loop_variable lo n k' !! s = k' !! s)
    by (intros lo [|n] k'; [done|]; cbn;
        rewrite lookup_insert_ne by (intros <-; tauto); done).
  rewrite run_cells_cases. cbv zeta.
  repeat match goal with
         | |- context [if ?b then _ else _] => destruct b
         | |- context [match ?o with Done _ => _ | Raised _ => _ end] =>
             destruct o
         end; cbn [snd];
    rewrite ?lookup_insert_ne by (intros <-; tauto);
    rewrite ?to_kernel_lookup_other by done;
    rewrite ?Hvar, ?Hpar; rewrite ?lookup_insert_ne by (intros <-; tauto);
    by rewrite ?Hset.
Qed.


(** A run of the cells that ends normally, and the kernel it leaves. *)
Lemma run_cells_done (c : Config T) k k' :
  run_cells c k = (Done (), k') →
  let Ts := div (of_int 1) (Fs c) in
  ∃ n len,
    is_zero (Fs c) = false ∧ is_zero Ts = false ∧
    math_floor (div (Tf c) Ts) = Done n ∧
    safe_ceil (div (sub (Tf c) (Ti c)) Ts) = Done len ∧
    0 ≤ n + 1 ∧ k !! "range" = None ∧
    (is_zero (tau c) = false ∨ n ≤ 0) ∧
    k' = to_kernel
           (arrays_at Ts (tau c) (Kp c) (Ki c) (Kd c) (Z.to_nat n)
              (fresh_arrays n))
           (loop_variable 0 (Z.to_nat n)
              (with_parameters c
                 (<["t" := VArr (arange_values (Ti c) Ts len)]>
                    (<["n_samples" := VInt n]>
                       (<["Ts" := VNum Ts]> (with_settings c k)))))).
Proof.
  rewrite run_cells_cases. cbv zeta. set (Ts := div (of_int 1) (Fs c)).
  destruct (is_zero (Fs c)) eqn:HFs; [by intros [=]|].
  destruct (is_zero Ts) eqn:HTs; [by intros [=]|].
  destruct (math_floor (div (Tf c) Ts)) as [n | err] eqn:Hn;
    [|by intros [=]].
  destruct (safe_ceil (div (sub (Tf c) (Ti c)) Ts)) as [len | err] eqn:Hlen;
    [|by intros [=]].
  destruct (Z.ltb_spec (n + 1) 0) as [Hneg | Hnn]; [by intros [=]|].
  destruct (k !! "range") as [v|] eqn:Hr.
  { rewrite bool_decide_eq_true_2 by done. by intros [=]. }
  rewrite (bool_decide_eq_false_2 (is_Some None)) by (by intros [? [=]]).
  destruct ((1 <=? n) && is_zero (tau c)) eqn:Hcase; [by intros [=]|].
  intros [= <-].
  exists n, len. repeat (split; [done|]). split; [|done].
  apply andb_false_iff in Hcase as [Hsmall | Htau]; [|by left].
  right. apply Z.leb_gt in Hsmall. lia.
Qed.

(** The same settings in the program on the arrays. *)
Lemma run_cells_notebook (c : Config T) k k' ns :
  run_cells c k = (Done (), k') →
  ∃ Ts n ns',
    notebook c ns = (Done (Ts, n), ns') ∧
    k' !! "Ts" = Some (VNum Ts) ∧ k' !! "n_samples" = Some (VInt n) ∧
    k' !! "t" = VArr <$> ns' !! "t" ∧
    (∀ x, k' !! var x = VArr <$> ns' !! var x) ∧
    (1 ≤ n → k' !! "i" = Some (VInt (n - 1))) ∧
    (n ≤ 0 → k' !! "i" = k !! "i").
Proof.
  intros Hrun. destruct (run_cells_done c k k' Hrun)
    as (n & len & HFs & HTs & Hn & Hlen & Hnn & Hr & Hok & ->).
  cbv zeta in *. set (Ts := div (of_int 1) (Fs c)) in *.
  exists Ts, n. eexists. split.
  { rewrite notebook_cases, HFs. cbv zeta. fold Ts. rewrite HTs, Hn, Hlen.
    rewrite simulate_cases. destruct (Z.ltb_spec (n + 1) 0); [lia|].
    replace ((1 <=? n) && is_zero (tau c)) with false; [reflexivity|].
    symmetry. apply andb_false_iff. destruct Hok as [Htau | Hsmall];
      [by right | left; apply Z.leb_gt; lia]. }
  assert (Hvar : ∀ s (k0 : Kernel T), s ≠ "i" →
            loop_variable 0 (Z.to_nat n) k0 !! s = k0 !! s).
  { intros s k0 Hs. destruct (Z.to_nat n); [done|]. cbn.
    by rewrite lookup_insert_ne. }
  split; [|split; [|split; [|split; [|split]]]].
  - rewrite to_kernel_lookup_other, Hvar by (done || by intros []).
    lookup_kernel.
  - rewrite to_kernel_lookup_other, Hvar by (done || by intros []).
    lookup_kernel.
  - rewrite to_kernel_lookup_other, Hvar by (done || by intros []).
    rewrite to_ns_lookup_other by (by intros []).
    rewrite lookup_insert_eq. lookup_kernel.
  - intros x. by rewrite to_kernel_lookup, to_ns_lookup.
  - intros Hpos. rewrite to_kernel_lookup_other by (by intros []).
    destruct (Z.to_nat n) as [|m] eqn:E; [lia|]. cbn.
    rewrite lookup_insert_eq. do 2 f_equal. lia.
  - intros Hsmall. rewrite to_kernel_lookup_other by (by intros []).
    replace (Z.to_nat n) with O by lia. cbn. lookup_kernel.
Qed.

(** With the builtin [range] in place the cells end as the program on
    the arrays ends: normally, or with the same exception. *)
Lemma run_cells_outcome (c : Config T) k ns :
  k !! "range" = None →
  fst (run_cells c k)
  = match fst (notebook c ns) with
    | Done _ => Done ()
    | Raised err => Raised err
    end.
Proof.
  intros Hr. rewrite run_cells_cases, notebook_cases. cbv zeta.
  set (Ts := div (of_int 1) (Fs c)).
  destruct (is_zero (Fs c)); [done|].
  destruct (is_zero Ts); [done|].
  destruct (math_floor (div (Tf c) Ts)) as [n | err]; [|done].
  destruct (safe_ceil (div (sub (Tf c) (Ti c)) Ts)) as [len | err]; [|done].
  rewrite simulate_cases. destruct (n + 1 <? 0); [done|].
  rewrite Hr, bool_decide_eq_false_2 by (by intros [? [=]]).
  by destruct ((1 <=? n) && is_zero (tau c)).
Qed.


(** ** The loop cell in the kernel *)

(** X1: the loop cell writes only the entries 1 to [n_samples] of the six
    trajectories, and binds [i].  In a kernel where [range] is the
    builtin, [n_samples], [Ts], [tau] and the gains are bound to numbers,
    the arrays are long enough and [tau] is not zero, it ends normally;
    the forcing input [m] and the setpoint [y_sp] are as before; every
    array keeps its length, its entry 0 and its entries past [n_samples];
    the loop variable [i] is left at [n_samples - 1] (as it was, when no
    pass was made); and no other name is touched. *)
Theorem loop_writes_only_its_steps Ts tau Kp Ki Kd (n : Z) A (k : Kernel T) :
  is_zero tau = false →
  k !! "range" = None → k !! "n_samples" = Some (VInt n) →
  loop_scalars Ts tau Kp Ki Kd k →
  (∀ x, k !! var x = Some (VArr (A x))) →
  (∀ x, (Z.to_nat n < length (A x))%nat) →
  ∃ k', cell_loop k = (Done (), k') ∧
    k' !! "m" = Some (VArr (A N_m)) ∧
    k' !! "y_sp" = Some (VArr (A N_y_sp)) ∧
    (∀ x, ∃ a, k' !! var x = Some (VArr a) ∧
               length a = length (A x) ∧
               a !! 0%nat = A x !! 0%nat ∧
               ∀ j : nat, (Z.to_nat n < j)%nat → a !! j = A x !! j) ∧
    k' !! "i" = (if decide (1 ≤ n) then Some (VInt (n - 1)) else k !! "i") ∧
    (∀ s : string, s ≠ "i" → (∀ x, s ≠ var x) → k' !! s = k !! s).
Proof.
  intros Htau Hr Hn Hsc Hb Hlen.
  pose proof (cell_loop_done Ts tau Kp Ki Kd n A k Hr Hn Hsc Htau Hlen) as E.
  rewrite (to_kernel_id A k Hb) in E. eexists. split; [exact E|].
  split; [by rewrite (to_kernel_lookup _ _ N_m)|].
  split; [by rewrite (to_kernel_lookup _ _ N_y_sp)|].
  split; [|split].
  - intros x. eexists. split; [apply to_kernel_lookup|].
    split; [apply length_arrays_at|]. split.
    + pose proof (Hlen x) as L.
      destruct x; cbn [arrays_at]; try done;
        (rewrite lookup_written_le by lia; unfold traj_of; cbn [traj sample0];
         cbn; symmetry; apply lookup_at_index; lia).
    + intros j Hj.
      destruct x; cbn [arrays_at]; try done; by apply lookup_written_gt.
  - rewrite to_kernel_lookup_other by (by intros []).
    destruct (Z.to_nat n) as [|m] eqn:En; cbn.
    + rewrite decide_False by lia. done.
    + rewrite decide_True by lia. rewrite lookup_insert_eq. do 2 f_equal. lia.
  - intros s Hi Hs. rewrite to_kernel_lookup_other by done.
    destruct (Z.to_nat n); [done|]. cbn. by rewrite lookup_insert_ne.
Qed.

(** X3: the loop cell in a kernel where the array [y_open_loop] is not
    bound.  With at least one step it binds [i] to 0 and raises in the
    first statement of the body: [NameError], or [ZeroDivisionError] when
    [tau == 0], since [Ts/tau] is evaluated before the first array is
    looked up.  Nothing but [i] is changed. *)
Theorem loop_without_arrays Ts tau (n : Z) (k : Kernel T) :
  1 ≤ n → k !! "range" = None → k !! "n_samples" = Some (VInt n) →
  k !! "Ts" = Some (VNum Ts) → k !! "tau" = Some (VNum tau) →
  k !! "y_open_loop" = None →
  cell_loop k
  = (Raised (if is_zero tau then ZeroDivisionError else NameError),
     <["i" := VInt 0]> k).
Proof.
  intros Hpos Hr Hn HTs Htau Hfree.
  destruct (is_zero tau) eqn:Hz.
  { by apply (cell_loop_zero_tau Ts tau n). }
  rewrite (cell_loop_start _ (VInt n)) by done.
  rewrite Hr, bool_decide_eq_false_2 by (by intros [? [=]]).
  destruct (Z.to_nat n) as [|m] eqn:E; [lia|].
  cbn [for_in_range]. rewrite cell_bind_run. unfold rebind at 1.
  rewrite cell_bind_run. unfold loop_pass. rewrite cell_bind_run.
  rewrite (quotient_bound "Ts" "tau" Ts tau)
    by (by rewrite lookup_insert_ne by done).
  rewrite Hz. rewrite cell_bind_run. unfold get_item.
  rewrite cell_bind_run. unfold read.
  by rewrite lookup_insert_ne, Hfree by done.
Qed.

(** ** The figure *)

Lemma plot_line_cases x y f l ls title legend (xs ys : list T) (k : Kernel T) :
  k !! "ax" = Some (VAxes ls title legend) →
  k !! x = Some (VArr xs) → k !! y = Some (VArr ys) →
  plot_line x y f l k
  = if decide (length xs = length (drop 1 ys))
    then (Done (),
          <["ax" := VAxes (ls ++ [{| xdata := xs; ydata := drop 1 ys;
                                     fmt := f; label := l |}])
                      title legend]> k)
    else (Raised ValueError, k).
Proof.
  intros Hax Hx Hy. unfold plot_line.
  rewrite cell_bind_run, (read_bound _ _ _ Hax).
  rewrite cell_bind_run, (read_bound _ _ _ Hx).
  rewrite cell_bind_run, (read_bound _ _ _ Hy).
  cbn [as_array as_data]. rewrite !cell_ret_bind.
  by destruct (decide _).
Qed.

(** The plotting cell in a kernel that holds the three arrays. *)
Lemma cell_plot_cases (t yo yc : list T) (k : Kernel T) :
  k !! "plt" = Some (VModule "matplotlib.pyplot") →
  k !! "t" = Some (VArr t) → k !! "y_open_loop" = Some (VArr yo) →
  k !! "y" = Some (VArr yc) →
  cell_plot k
  = let k1 := <["fig" := VFigure]> k in
    let l1 := {| xdata := t; ydata := drop 1 yo;
                 fmt := "r-"; label := "Open Loop" |} in
    let l2 := {| xdata := t; ydata := drop 1 yc;
                 fmt := "b-"; label := "Closed Loop" |} in
    if decide (length t = length (drop 1 yo))
    then if decide (length t = length (drop 1 yc))
         then (Done (), <["ax" := VAxes [l1; l2] (Some "Responses") true]> k1)
         else (Raised ValueError, <["ax" := VAxes [l1] None false]> k1)
    else (Raised ValueError, <["ax" := VAxes [] None false]> k1).
Proof.
  intros Hplt Ht Hyo Hyc. unfold cell_plot. cbv zeta.
  rewrite cell_bind_run, (function_of_bound _ _ _ Hplt).
  rewrite cell_bind_run. unfold rebind at 1.
  rewrite cell_bind_run, function_of_bound
    by (by rewrite lookup_insert_ne by done).
  rewrite cell_bind_run. unfold rebind at 1.
  set (k1 := <["fig" := VFigure]> k).
  rewrite cell_bind_run.
  rewrite (plot_line_cases "t" "y_open_loop" _ _ [] None false t yo)
    by (unfold k1; by repeat first [ rewrite lookup_insert_eq
                                   | rewrite lookup_insert_ne by done ]).
  destruct (decide (length t = length (drop 1 yo))); [|done].
  rewrite insert_insert_eq. cbn [app].
  rewrite cell_bind_run.
  rewrite (plot_line_cases "t" "y" _ _ _ None false t yc)
    by (unfold k1; by repeat first [ rewrite lookup_insert_eq
                                   | rewrite lookup_insert_ne by done ]).
  destruct (decide (length t = length (drop 1 yc))); [|done].
  rewrite insert_insert_eq. cbn [app].
  rewrite cell_bind_run, function_of_bound
    by (unfold k1; by rewrite !lookup_insert_ne by done).
  rewrite cell_bind_run.
  rewrite (read_bound "ax" _ _ (lookup_insert_eq _ _ _)).
  rewrite cell_bind_run. unfold rebind at 1. rewrite insert_insert_eq.
  rewrite cell_bind_run.
  rewrite (read_bound "ax" _ _ (lookup_insert_eq _ _ _)).
  rewrite cell_bind_run. unfold rebind at 1. rewrite insert_insert_eq.
  by rewrite function_of_bound
    by (unfold k1; by rewrite !lookup_insert_ne by done).
Qed.

(** X5: the figure of a run.  After the cells up to the loop have ended
    normally the kernel holds the time base [t], of as many points as
    [np.arange] counts and filled as numpy fills it, and the two outputs,
    of [n_samples + 1] entries.  The plotting cell then binds [fig] and
    [ax]; it draws its two lines, titled and with the legend, exactly
    when [t] has [n_samples] points, each line pairing [t] with the
    output from index 1 on; otherwise the first [ax.plot] raises
    [ValueError] and the axes stay empty.  No other name is touched. *)
Theorem figure_of_a_run (c : Config T) (k k' : Kernel T) :
  run_cells c k = (Done (), k') →
  let Ts := div (of_int 1) (Fs c) in
  ∃ n len t yo yc,
    k' !! "n_samples" = Some (VInt n) ∧
    math_floor (div (Tf c) Ts) = Done n ∧
    safe_ceil (div (sub (Tf c) (Ti c)) Ts) = Done len ∧
    k' !! "t" = Some (VArr t) ∧
    k' !! "y_open_loop" = Some (VArr yo) ∧ k' !! "y" = Some (VArr yc) ∧
    length t = Z.to_nat len ∧
    (∀ i : nat, (i < length t)%nat →
                t !! i = Some (arange_item (Ti c) Ts i)) ∧
    length yo = Z.to_nat (n + 1) ∧ length yc = Z.to_nat (n + 1) ∧
    cell_plot k'
    = (if decide (length t = Z.to_nat n)
       then (Done (),
             <["ax" := VAxes [ {| xdata := t; ydata := drop 1 yo;
                                  fmt := "r-"; label := "Open Loop" |};
                               {| xdata := t; ydata := drop 1 yc;
                                  fmt := "b-"; label := "Closed Loop" |} ]
                         (Some "Responses") true]>
               (<["fig" := VFigure]> k'))
       else (Raised ValueError,
             <["ax" := VAxes [] None false]> (<["fig" := VFigure]> k'))).
Proof.
  intros Hrun Ts.
  destruct (run_cells_done c k k' Hrun)
    as (n & len & HFs & HTs & Hn & Hlen & Hnn & Hr & Hok & EK).
  cbv zeta in *. fold Ts in HTs, Hn, Hlen, EK.
  assert (Hvar : ∀ s (k0 : Kernel T), s ≠ "i" →
            loop_variable 0 (Z.to_nat n) k0 !! s = k0 !! s).
  { intros s k0 Hs. destruct (Z.to_nat n); [done|]. cbn.
    by rewrite lookup_insert_ne. }
  set (A := arrays_at Ts (tau c) (Kp c) (Ki c) (Kd c) (Z.to_nat n)
              (fresh_arrays n)) in *.
  assert (Ht : k' !! "t" = Some (VArr (arange_values (Ti c) Ts len))).
  { rewrite EK, to_kernel_lookup_other, Hvar by (done || by intros []).
    lookup_kernel. }
  assert (Hplt : k' !! "plt" = Some (VModule "matplotlib.pyplot")).
  { rewrite EK, to_kernel_lookup_other, Hvar by (done || by intros []).
    lookup_kernel. }
  assert (Hyo : k' !! "y_open_loop" = Some (VArr (A N_y_open_loop))).
  { rewrite EK. apply (to_kernel_lookup _ _ N_y_open_loop). }
  assert (Hyc : k' !! "y" = Some (VArr (A N_y))).
  { rewrite EK. apply (to_kernel_lookup _ _ N_y). }
  assert (Lt : length (arange_values (Ti c) Ts len) = Z.to_nat len).
  { unfold arange_values. by rewrite length_fmap, length_seq. }
  assert (Lo : ∀ x, length (A x) = Z.to_nat (n + 1)).
  { intros x. unfold A. by rewrite length_arrays_at, length_fresh_arrays. }
  exists n, len, (arange_values (Ti c) Ts len), (A N_y_open_loop), (A N_y).
  split.
  { rewrite EK, to_kernel_lookup_other, Hvar by (done || by intros []).
    lookup_kernel. }
  do 6 (split; [done|]). split.
  { intros i Hi. unfold arange_values. rewrite list_lookup_fmap.
    rewrite Lt in Hi. by rewrite lookup_seq_lt. }
  do 2 (split; [done|]).
  rewrite (cell_plot_cases _ _ _ _ Hplt Ht Hyo Hyc). cbv zeta.
  rewrite !length_drop, !Lo.
  replace (Z.to_nat (n + 1) - 1)%nat with (Z.to_nat n) by lia.
  by destruct (decide _).
Qed.

End KernelRun.


(** Three steps on arrays of four entries. *)
Lemma loop_writes_only_its_steps_witness :
  let A : Arrays float := fresh_arrays 3 in
  let k : Kernel float :=
    to_kernel A
      (<["n_samples" := VInt 3]> (<["Ts" := VNum 1%float]>
      (<["tau" := VNum 2%float]> (<["Kp" := VNum 5%float]>
      (<["Ki" := VNum 5%float]>
      (<["Kd" := VNum 0x1.999999999999ap-4%float]> ∅)))))) in
  ∃ k', cell_loop k = (Done (), k') ∧
    k' !! "m" = Some (VArr (A N_m)) ∧
    k' !! "y_sp" = Some (VArr (A N_y_sp)) ∧
    (∀ x, ∃ a, k' !! var x = Some (VArr a) ∧
               length a = length (A x) ∧
               a !! 0%nat = A x !! 0%nat ∧
               ∀ j : nat, (Z.to_nat 3 < j)%nat → a !! j = A x !! j) ∧
    k' !! "i" = (if decide (1 ≤ 3) then Some (VInt (3 - 1)) else k !! "i") ∧
    (∀ s : string, s ≠ "i" → (∀ x, s ≠ var x) → k' !! s = k !! s).
Proof.
  intros A k.
  apply (loop_writes_only_its_steps 1%float 2%float 5%float 5%float
           0x1.999999999999ap-4%float 3 A k).
  - reflexivity.
  - reflexivity.
  - reflexivity.
  - repeat split; reflexivity.
  - intros []; reflexivity.
  - intros []; vm_compute; lia.
Defined.

(** One step with [tau = 0] in a kernel without arrays. *)
Lemma loop_without_arrays_witness :
  let k : Kernel float :=
    <["n_samples" := VInt 1]> (<["Ts" := VNum 1%float]>
    (<["tau" := VNum 0%float]> ∅)) in
  cell_loop k = (Raised ZeroDivisionError, <["i" := VInt 0]> k).
Proof.
  intros k.
  change (cell_loop k
          = (Raised (if is_zero 0%float then ZeroDivisionError else NameError),
             <["i" := VInt 0]> k)).
  apply (loop_without_arrays 1%float 0%float 1 k);
    [lia | reflexivity | reflexivity | reflexivity | reflexivity | reflexivity].
Defined.

(** [Fs = 49], [Tf = 1]: the time base has 50 points, the outputs from
    index 1 on have 49, and the first [ax.plot] raises. *)
Lemma figure_of_a_run_witness :
  let c : Config float :=
    {| Fs := 49; Tf := 1; Ti := 0;
       tau := 2; Kp := 5; Ki := 5; Kd := 0x1.999999999999ap-4 |}%float in
  let k' := snd (run_cells c ∅) in
  let Ts := div (of_int 1) (Fs c) in
  ∃ n len t yo yc,
    k' !! "n_samples" = Some (VInt n) ∧
    math_floor (div (Tf c) Ts) = Done n ∧
    safe_ceil (div (sub (Tf c) (Ti c)) Ts) = Done len ∧
    k' !! "t" = Some (VArr t) ∧
    k' !! "y_open_loop" = Some (VArr yo) ∧ k' !! "y" = Some (VArr yc) ∧
    length t = Z.to_nat len ∧
    (∀ i : nat, (i < length t)%nat →
                t !! i = Some (arange_item (Ti c) Ts i)) ∧
    length yo = Z.to_nat (n + 1) ∧ length yc = Z.to_nat (n + 1) ∧
    cell_plot k'
    = (if decide (length t = Z.to_nat n)
       then (Done (),
             <["ax" := VAxes [ {| xdata := t; ydata := drop 1 yo;
                                  fmt := "r-"; label := "Open Loop" |};
                               {| xdata := t; ydata := drop 1 yc;
                                  fmt := "b-"; label := "Closed Loop" |} ]
                         (Some "Responses") true]>
               (<["fig" := VFigure]> k'))
       else (Raised ValueError,
             <["ax" := VAxes [] None false]> (<["fig" := VFigure]> k'))).
Proof.
  intros c k' Ts. apply (figure_of_a_run c ∅ k').
  vm_compute. reflexivity.
Defined.

(** ** The open-loop output in binary64 against the closed form *)

Section Rounding.
Local Open Scope Q_scope.

(** A binary64 number that stands for a positive rational is not zero. *)
Lemma float_to_Q_pos (x : float) : 0 < float_to_Q x → is_zero x = false.
Proof.
  unfold float_to_Q. cbn [is_zero float_Num]. unfold float_is_zero.
  rewrite FloatAxioms.eqb_spec. change (Prim2SF 0%float) with (S754_zero false).
  destruct (Prim2SF x) as [s | s | | s m e]; try (intros Hx; lra).
  intros _. by destruct s.
Qed.

(** A recurrence that follows [y' = (1 - r)*y + r] from 0 up to an error
    [delta] at each step stays within [delta * (1 - (1 - r)^k) / r] of
    [1 - (1 - r)^k]. *)
Lemma perturbed_recurrence (r delta : Q) (y : nat → Q) (n : nat) :
  0 <= r → r <= 1 → y O == 0 →
  (∀ j : nat, (j < n)%nat →
     Qabs (y (S j) - ((1 - r) * y j + r)) <= delta) →
  ∀ k : nat, (k <= n)%nat →
    Qabs (y k - (1 - (1 - r) ^ Z.of_nat k)) * r
    <= delta * (1 - (1 - r) ^ Z.of_nat k).
Proof.
  intros Hr0 Hr1 H0 Hstep.
  assert (Hb : ∀ k : nat, (k <= n)%nat →
            - (delta * (1 - (1 - r) ^ Z.of_nat k))
            <= (y k - (1 - (1 - r) ^ Z.of_nat k)) * r
            ∧ (y k - (1 - (1 - r) ^ Z.of_nat k)) * r
              <= delta * (1 - (1 - r) ^ Z.of_nat k)).
  { induction k as [|k IH]; intros Hk.
    - change (Z.of_nat 0) with 0%Z. rewrite Qpower_0_r, H0. split; lra.
    - destruct IH as [IHl IHu]; [lia|].
      pose proof (Hstep k ltac:(lia)) as Hs.
      apply Qabs_Qle_condition in Hs as [Hsl Hsu].
      rewrite Qpower_succ.
      set (p := (1 - r) ^ Z.of_nat k) in *.
      set (d := y k - (1 - p)) in *.
      set (eps := y (S k) - ((1 - r) * y k + r)) in *.
      assert (E : y (S k) - (1 - (1 - r) * p) == (1 - r) * d + eps)
        by (unfold d, eps; ring).
      rewrite E.
      assert (0 <= (1 - r) * (delta * (1 - p) - d * r))
        by (apply Qmult_le_0_compat; lra).
      assert (0 <= (1 - r) * (d * r + delta * (1 - p)))
        by (apply Qmult_le_0_compat; lra).
      assert (0 <= r * (delta - eps)) by (apply Qmult_le_0_compat; lra).
      assert (0 <= r * (eps + delta)) by (apply Qmult_le_0_compat; lra).
      split; lra. }
  intros k Hk. destruct (Hb k Hk) as [Hl Hu].
  rewrite <- (Qabs_pos r) at 2 by done. rewrite <- Qabs_Qmult.
  by apply Qabs_Qle_condition.
Qed.

Lemma rounding_within_step (delta : Q) (Ts tau : float) (n j : nat) :
  rounding_within delta Ts tau n = true → (j < n)%nat →
  float_is_finite (y_open_loop_at Ts tau (S j)) = true ∧
  step_error Ts tau j <= delta.
Proof.
  unfold rounding_within. rewrite forallb_forall. intros Hall Hj.
  assert (Hin : In j (seq 0 n)) by (apply in_seq; lia).
  apply Hall, andb_true_iff in Hin as [Hf He].
  split; [done|]. by apply Qle_bool_iff.
Qed.


End Rounding.


(** ** The program on concrete settings *)

(** The notebook as it is written: one thousand steps of 0.01 s. *)
Example notebook_as_written :
  let run := notebook notebook_config ∅ in
  fst run = Done (0x1.47ae147ae147bp-7%float, 1000) ∧
  length <$> snd run !! "t" = Some 1000%nat ∧
  length <$> snd run !! "y" = Some 1001%nat ∧
  item (snd run) "y_open_loop" 1000 = Some 0x1.fc97d9dd216fbp-1%float ∧
  item (snd run) "y" 1000 = Some 0x1.ffffe1697e8c9p+0%float.
Proof.
  assert (E : (let run := notebook notebook_config ∅ in
               (fst run, length <$> snd run !! "t", length <$> snd run !! "y",
                item (snd run) "y_open_loop" 1000, item (snd run) "y" 1000))
              = (Done (0x1.47ae147ae147bp-7%float, 1000), Some 1000%nat,
                 Some 1001%nat, Some 0x1.fc97d9dd216fbp-1%float,
                 Some 0x1.ffffe1697e8c9p+0%float))
    by (vm_compute; reflexivity).
  cbv zeta in E. apply pair_eq_inv in E as [E E5].
  apply pair_eq_inv in E as [E E4]. apply pair_eq_inv in E as [E E3].
  apply pair_eq_inv in E as [E1 E2]. cbv zeta.
  split; [exact E1|]. split; [exact E2|]. split; [exact E3|].
  split; [exact E4 | exact E5].
Qed.

(** The first open-loop step by hand: [(1 - 0.005)*0 + 0.005*1 = 0.005]. *)
Example first_open_loop_step :
  item (snd (simulate (PrimFloat.div 1 100) 2%float 5%float 5%float
               0x1.999999999999ap-4%float 2 ∅)) "y_open_loop" 1
  = Some (PrimFloat.div 5 1000).
Proof. vm_compute. reflexivity. Qed.


(** Divergence is not detected: with [Ts = 3], [tau = 1] eleven hundred
    steps overflow, the open-loop output ends at minus infinity and the
    closed-loop output at NaN, and the run still ends normally. *)
Example overflow_is_not_an_error :
  let run := simulate 3%float 1%float 5%float 5%float
               0x1.999999999999ap-4%float 1100 ∅ in
  fst run = Done () ∧
  item (snd run) "y_open_loop" 1100 = Some neg_infinity ∧
  item (snd run) "y" 1100 = Some nan.
Proof.
  assert (E : (let run := simulate 3%float 1%float 5%float 5%float
                            0x1.999999999999ap-4%float 1100 ∅ in
               (fst run, item (snd run) "y_open_loop" 1100,
                item (snd run) "y" 1100))
              = (Done (), Some neg_infinity, Some nan))
    by (vm_compute; reflexivity).
  cbv zeta in E. apply pair_eq_inv in E as [E E3].
  apply pair_eq_inv in E as [E1 E2]. cbv zeta.
  split; [exact E1|]. split; [exact E2 | exact E3].
Qed.
